(** * Verification of the managed-cluster add-on lease controller

    Shallow embedding of [pkg/spoke/addon/lease_controller.go]: the
    controller derives, from the freshness of an add-on agent's lease, the
    [ManagedClusterAddOnConditionAvailable] condition of the add-on and
    writes it back through a conditional status update.

    The Go code talks to its collaborators (listers, clock, client, event
    recorder, work queue) through interfaces.  Here every Go function is a
    computation in a small monad that threads the state of the collaborators,
    records each call made on them in a trace, and can leave early with a
    [return] or a panic. *)

From Stdlib Require Import ZArith String List Ascii Lia.
From stdpp Require Import base option gmap strings list.
Import ListNotations.

Local Open Scope string_scope.
Local Open Scope Z_scope.
Local Open Scope list_scope.

(** ** Errors ([k8s.io/apimachinery/pkg/api/errors]) *)

Inductive StatusReason :=
| StatusReasonNotFound
| StatusReasonOther.

Record error := mkError {
  errReason : StatusReason;
  errText : string
}.

(** [errors.IsNotFound(err)] for a non-nil [err]. *)
Definition IsNotFound (err : error) : bool :=
  match errReason err with
  | StatusReasonNotFound => true
  | StatusReasonOther => false
  end.

(** ** Time ([time.Time], [time.Duration])

    An instant is its number of nanoseconds since the Unix epoch, unbounded
    (a [time.Time] covers far more than any lease or clock reading); a
    [Duration] is Go's [int64] count of nanoseconds, with its wrap-around. *)

Definition Time := Z.
Definition Duration := Z.

Definition wrap64 (z : Z) : Z := (z + 2 ^ 63) mod 2 ^ 64 - 2 ^ 63.

Definition Second : Duration := 1000000000.

Definition Duration_mul (a b : Duration) : Duration := wrap64 (a * b).

(** [t.Add(d)] and [t.Before(u)]. *)
Definition Time_Add (t : Time) (d : Duration) : Time := t + d.
Definition Time_Before (t u : Time) : bool := t <? u.

(** The zero [time.Time] (January 1, year 1, 00:00 UTC). *)
Definition zeroTime : Time := -62135596800 * 1000000000.
Definition Time_IsZero (t : Time) : bool := t =? zeroTime.

(** ** Conditions ([metav1.Condition]) *)

Definition ConditionStatus := string.
Definition ConditionTrue : ConditionStatus := "True".
Definition ConditionFalse : ConditionStatus := "False".
Definition ConditionUnknown : ConditionStatus := "Unknown".

Record Condition := mkCondition {
  Type_ : string;
  Status : ConditionStatus;
  ObservedGeneration : Z;
  LastTransitionTime : Time;
  Reason : string;
  Message : string
}.

(** The composite literal [metav1.Condition{Type: .., Status: .., Reason: ..,
    Message: ..}]: the fields left out take their zero value. *)
Definition newCondition (ty : string) (st : ConditionStatus) (reason message : string)
  : Condition :=
  {| Type_ := ty; Status := st; ObservedGeneration := 0;
     LastTransitionTime := zeroTime; Reason := reason; Message := message |}.

(** [meta.IsStatusConditionPresentAndEqual]: the first condition of the
    given type decides. *)
Fixpoint IsStatusConditionPresentAndEqual
  (conditions : list Condition) (conditionType : string) (status : ConditionStatus)
  : bool :=
  match conditions with
  | [] => false
  | condition :: rest =>
      if String.eqb (Type_ condition) conditionType
      then String.eqb (Status condition) status
      else IsStatusConditionPresentAndEqual rest conditionType status
  end.

(** ** Resources *)

Record ObjectMeta := mkObjectMeta {
  Name : string;
  Namespace : string;
  Annotations : gmap string string
}.

Record ManagedClusterAddOnStatus := mkAddOnStatus {
  Conditions : list Condition
}.

Record ManagedClusterAddOn := mkAddOn {
  addOnMeta : ObjectMeta;
  AddOnStatus : ManagedClusterAddOnStatus
}.

Record LeaseSpec := mkLeaseSpec {
  (** [RenewTime *metav1.MicroTime]: [None] is the nil pointer. *)
  RenewTime : option Time
}.

Record Lease := mkLease {
  leaseMeta : ObjectMeta;
  Spec : LeaseSpec
}.

(** The result of [getAddOnConfig]. *)
Record AddOnConfig := mkAddOnConfig {
  InstallationNamespace : string
}.

(** ** Constants of the controller *)

Definition addOnAvailableConditionType : string := "ManagedClusterAddOnConditionAvailable".
Definition leaseDurationSeconds : Z := 60.
Definition leaseDurationTimes : Z := 5.

(** [factory.DefaultQueueKey] of library-go. *)
Definition DefaultQueueKey : string := "key".

(** ** Calls on the collaborators

    The work queue takes any value ([interface{}]): a string key or an
    object. *)

Inductive QueueItem :=
| ItemString (key : string)
| ItemAddOn (addOn : ManagedClusterAddOn).

Inductive Effect :=
| AddOnList (namespace : string)
| AddOnGet (namespace name : string)
| LeaseGet (namespace name : string)
| ClockNow
| UpdateStatus (namespace name : string) (condition : Condition)
| Eventf (reason messageFmt : string) (args : list string)
| QueueAdd (item : QueueItem).

(** How a Go function is left: [return err] ([None] is [nil]) or a panic. *)
Inductive Exit :=
| Return (err : option error)
| Panic.

(** ** [cache.SplitMetaNamespaceKey] *)

(** [strings.Split(s, "/")]. *)
Fixpoint splitSlash (s : string) : list string :=
  match s with
  | EmptyString => [EmptyString]
  | String ch rest =>
      if Ascii.eqb ch "/"%char then EmptyString :: splitSlash rest
      else match splitSlash rest with
           | part :: parts => String ch part :: parts
           | [] => [String ch EmptyString]
           end
  end.

(** The text of its error is of no consequence: [sync] drops the error. *)
Definition SplitMetaNamespaceKey (key : string) : string * string * option error :=
  match splitSlash key with
  | [name] => (EmptyString, name, None)
  | [namespace; name] => (namespace, name, None)
  | _ => (EmptyString, EmptyString,
          Some (mkError StatusReasonOther "unexpected key format"))
  end.

Coercion addOnMeta : ManagedClusterAddOn >-> ObjectMeta.
Coercion leaseMeta : Lease >-> ObjectMeta.

(** ** The collaborators, as the interfaces the controller holds

    [S] is the state of the world the collaborators give access to (the hub's
    store, the informer caches, the clock). *)

Record ManagedClusterAddOnLister (S : Type) := mkAddOnLister {
  (** [ManagedClusterAddOns(namespace).List(labels.Everything())] *)
  ManagedClusterAddOns_List : string -> S -> list ManagedClusterAddOn + error;
  (** [ManagedClusterAddOns(namespace).Get(name)] *)
  ManagedClusterAddOns_Get : string -> string -> S -> ManagedClusterAddOn + error
}.

Record LeaseLister (S : Type) := mkLeaseLister {
  (** [Leases(namespace).Get(name)] *)
  Leases_Get : string -> string -> S -> Lease + error
}.

Record Clock (S : Type) := mkClock {
  Now : S -> Time
}.

Record AddOnClient (S : Type) := mkAddOnClient {
  (** [AddonV1alpha1().ManagedClusterAddOns(namespace).Get(ctx, name, ..)] *)
  client_Get : string -> string -> S -> ManagedClusterAddOn + error;
  (** [AddonV1alpha1().ManagedClusterAddOns(namespace).UpdateStatus(ctx, addOn, ..)] *)
  client_UpdateStatus : string -> ManagedClusterAddOn -> S -> S * (ManagedClusterAddOn + error)
}.

Record managedClusterAddOnLeaseController (S : Type) := mkController {
  clusterName : string;
  clock : Clock S;
  addOnClient : AddOnClient S;
  addOnLister : ManagedClusterAddOnLister S;
  leaseLister : LeaseLister S
}.

Arguments ManagedClusterAddOns_List {S}.
Arguments ManagedClusterAddOns_Get {S}.
Arguments Leases_Get {S}.
Arguments Now {S}.
Arguments client_Get {S}.
Arguments client_UpdateStatus {S}.
Arguments clusterName {S}.
Arguments clock {S}.
Arguments addOnClient {S}.
Arguments addOnLister {S}.
Arguments leaseLister {S}.

(** ** The monad of Go function bodies *)

Definition M (S A : Type) : Type := S -> S * list Effect * (A + Exit).

Definition ret {S A} (a : A) : M S A := fun s => (s, [], inl a).

Definition bind {S A B} (m : M S A) (k : A -> M S B) : M S B :=
  fun s =>
    match m s with
    | (s1, t1, inl a) =>
        match k a s1 with
        | (s2, t2, r) => (s2, t1 ++ t2, r)
        end
    | (s1, t1, inr e) => (s1, t1, inr e)
    end.

(** Leaving the function: [return err], or a panic. *)
Definition exit {S A} (e : Exit) : M S A := fun s => (s, [], inr e).

(** A call that only goes to the trace (the recorder, the queue). *)
Definition emit {S} (e : Effect) : M S unit := fun s => (s, [e], inl tt).

(** Dereferencing a pointer: nil panics. *)
Definition deref {S A} (p : option A) : M S A :=
  match p with
  | Some a => ret a
  | None => exit Panic
  end.

Declare Scope go_scope.
Delimit Scope go_scope with go.

Notation "x <- c1 ;; c2" := (bind c1 (fun x => c2))
  (at level 100, c1 at next level, right associativity) : go_scope.
Notation "c1 ;; c2" := (bind c1 (fun _ => c2))
  (at level 100, right associativity) : go_scope.

(** [for _, x := range xs { body }] *)
Fixpoint forEach {S A} (xs : list A) (body : A -> M S unit) : M S unit :=
  match xs with
  | [] => ret tt
  | x :: rest => bind (body x) (fun _ => forEach rest body)
  end.

(** A function body never falls off its end: it leaves through [exit]. *)
Definition run {S} (body : M S Empty_set) (s : S) : S * list Effect * Exit :=
  match body s with
  | (s', t, inl impossible) => match impossible with end
  | (s', t, inr e) => (s', t, e)
  end.

(** What a run did, read off its trace: the events it recorded, the status
    updates it sent through the helper, what it added to the queue. *)
Definition isEvent (e : Effect) : bool :=
  match e with Eventf _ _ _ => true | _ => false end.
Definition isStatusWrite (e : Effect) : bool :=
  match e with UpdateStatus _ _ _ => true | _ => false end.
Definition isQueueAdd (e : Effect) : bool :=
  match e with QueueAdd _ => true | _ => false end.

Definition events (t : list Effect) : list Effect := List.filter isEvent t.
Definition statusWrites (t : list Effect) : list Effect := List.filter isStatusWrite t.
Definition queueAdds (t : list Effect) : list Effect := List.filter isQueueAdd t.

(** ** The controller (package [addon]) *)

Module addon.

Section Controller.

Context {S : Type}.

(** [getAddOnConfig] lives in another file of the package; the controller
    only looks at whether it fails and at [InstallationNamespace]. *)
Variable getAddOnConfig : ManagedClusterAddOn -> AddOnConfig + error.

(** [helpers.UpdateManagedClusterAddOnStatus(ctx, client, namespace, name,
    helpers.UpdateManagedClusterAddOnStatusFn(condition))]: the returned
    [updated] flag and error (the returned status is dropped by the
    controller). *)
Variable UpdateManagedClusterAddOnStatus :
  AddOnClient S -> string -> string -> Condition -> S -> S * (bool * option error).

Local Open Scope go_scope.

Implicit Type c : managedClusterAddOnLeaseController S.

Definition listAddOns c (namespace : string) : M S (list ManagedClusterAddOn + error) :=
  fun s => (s, [AddOnList namespace],
            inl (ManagedClusterAddOns_List (addOnLister c) namespace s)).

Definition getAddOn c (namespace name : string) : M S (ManagedClusterAddOn + error) :=
  fun s => (s, [AddOnGet namespace name],
            inl (ManagedClusterAddOns_Get (addOnLister c) namespace name s)).

Definition getLease c (namespace name : string) : M S (Lease + error) :=
  fun s => (s, [LeaseGet namespace name],
            inl (Leases_Get (leaseLister c) namespace name s)).

Definition clockNow c : M S Time :=
  fun s => (s, [ClockNow], inl (Now (clock c) s)).

Definition updateAddOnStatus c (namespace name : string) (condition : Condition)
  : M S (bool * option error) :=
  fun s =>
    match UpdateManagedClusterAddOnStatus (addOnClient c) namespace name condition s with
    | (s', r) => (s', [UpdateStatus namespace name condition], inl r)
    end.

(** [time.Duration(leaseDurationTimes*leaseDurationSeconds) * time.Second] *)
Definition gracePeriod : Duration :=
  Duration_mul (wrap64 (leaseDurationTimes * leaseDurationSeconds)) Second.

(** The lease lookup and the [switch] of [syncSingle] (lines 107 to 141):
    the condition the lease stands for, unless the function is left there. *)
Definition syncSingle_condition c (leaseNamespace : string) (addOn : ManagedClusterAddOn)
  : M S Condition :=
  observed <- getLease c leaseNamespace (Name addOn) ;;
  match observed with
  | inr err =>
      if IsNotFound err
      then ret (newCondition addOnAvailableConditionType ConditionUnknown
                  "ManagedClusterAddOnLeaseNotFound"
                  "Managed cluster addon agent lease is not found.")
      else exit (Return (Some err))
  | inl observedLease =>
      now <- clockNow c ;;
      renewTime <- deref (RenewTime (Spec observedLease)) ;;
      if Time_Before now (Time_Add renewTime gracePeriod)
      then ret (newCondition addOnAvailableConditionType ConditionTrue
                  "ManagedClusterAddOnLeaseUpdated"
                  "Managed cluster addon agent updates its lease constantly.")
      else ret (newCondition addOnAvailableConditionType ConditionFalse
                  "ManagedClusterAddOnLeaseUpdateStopped"
                  "Managed cluster addon agent stopped updating its lease.")
  end.

Definition statusUpdatedEvent (addOn : ManagedClusterAddOn) (condition : Condition) : Effect :=
  Eventf "ManagedClusterAddOnStatusUpdated"
    "update managed cluster addon %q available condition to %q, due to its lease is not updated constantly"
    [Name addOn; Status condition].

Definition syncSingle c (leaseNamespace : string) (addOn : ManagedClusterAddOn)
  : M S Empty_set :=
  condition <- syncSingle_condition c leaseNamespace addOn ;;
  if IsStatusConditionPresentAndEqual (Conditions (AddOnStatus addOn))
       (Type_ condition) (Status condition)
  then exit (Return None)
  else
    r <- updateAddOnStatus c (clusterName c) (Name addOn) condition ;;
    match r with
    | (_, Some err) => exit (Return (Some err))
    | (updated, None) =>
        (if updated then emit (statusUpdatedEvent addOn condition) else ret tt) ;;
        exit (Return None)
    end.

(** [sync]; the sync context is its queue key, its queue and its recorder
    receive the [QueueAdd] and [Eventf] calls of the trace. *)
Definition sync c (queueKey : string) : M S Empty_set :=
  if String.eqb queueKey DefaultQueueKey then
    addOns <- listAddOns c (clusterName c) ;;
    match addOns with
    | inr err => exit (Return (Some err))
    | inl addOns =>
        forEach addOns (fun addOn =>
          match getAddOnConfig addOn with
          | inr _ => ret tt
          | inl _ => emit (QueueAdd (ItemAddOn addOn))
          end) ;;
        exit (Return None)
    end
  else
    match SplitMetaNamespaceKey queueKey with
    | (_, _, Some _) => exit (Return None)
    | (addOnNamespace, addOnName, None) =>
        addOn <- getAddOn c (clusterName c) addOnName ;;
        match addOn with
        | inr err =>
            if IsNotFound err then exit (Return None) else exit (Return (Some err))
        | inl addOn => syncSingle c addOnNamespace addOn
        end
    end.

(** [queueKeyFunc]: the lease is the object of the informer's notification. *)
Definition queueKeyFunc c (lease : Lease) : M S string :=
  let name := Name lease in
  addOn <- getAddOn c (clusterName c) name ;;
  match addOn with
  | inr _ => ret ""
  | inl addOn =>
      match getAddOnConfig addOn with
      | inr _ => ret ""
      | inl addOnConifg =>
          let namespace := Namespace lease in
          if negb (String.eqb namespace (InstallationNamespace addOnConifg))
          then ret ""
          else ret (namespace ++ "/" ++ name)%string
      end
  end.

End Controller.

End addon.

(** ** The status helper and the hub it writes to *)

#[global] Instance StatusReason_eq_dec : EqDecision StatusReason.
Proof. solve_decision. Defined.
#[global] Instance error_eq_dec : EqDecision error.
Proof. solve_decision. Defined.
#[global] Instance Condition_eq_dec : EqDecision Condition.
Proof. solve_decision. Defined.
#[global] Instance ManagedClusterAddOnStatus_eq_dec : EqDecision ManagedClusterAddOnStatus.
Proof. solve_decision. Defined.

(** [meta.SetStatusCondition] of apimachinery, [now] being its [time.Now()]:
    the first condition of the type is updated in place, a condition of a
    new type is appended. *)
Fixpoint SetStatusCondition (now : Time) (conditions : list Condition)
  (newCondition : Condition) : list Condition :=
  match conditions with
  | [] =>
      [ if Time_IsZero (LastTransitionTime newCondition)
        then {| Type_ := Type_ newCondition; Status := Status newCondition;
                ObservedGeneration := ObservedGeneration newCondition;
                LastTransitionTime := now;
                Reason := Reason newCondition; Message := Message newCondition |}
        else newCondition ]
  | existing :: rest =>
      if String.eqb (Type_ existing) (Type_ newCondition) then
        (if negb (String.eqb (Status existing) (Status newCondition))
         then {| Type_ := Type_ existing; Status := Status newCondition;
                 ObservedGeneration := ObservedGeneration existing;
                 LastTransitionTime :=
                   if negb (Time_IsZero (LastTransitionTime newCondition))
                   then LastTransitionTime newCondition else now;
                 Reason := Reason newCondition; Message := Message newCondition |}
         else {| Type_ := Type_ existing; Status := Status existing;
                 ObservedGeneration := ObservedGeneration existing;
                 LastTransitionTime := LastTransitionTime existing;
                 Reason := Reason newCondition; Message := Message newCondition |})
        :: rest
      else existing :: SetStatusCondition now rest newCondition
  end.

Module helpers.

(** Modelled from the spec: [helpers.UpdateManagedClusterAddOnStatus] with
    [helpers.UpdateManagedClusterAddOnStatusFn(condition)], of the package
    [pkg/helpers], whose source is not at hand.  The spec gives
    [conditionalUpdateStatus(kind, namespace, name, mutateFn) -> (resource,
    changed, error)]: a conditional update against the shared store that
    upserts the single condition entry (reason, message and transition time
    merged by the shared status helper), reports whether the stored status
    genuinely changed, and propagates the store's errors.  Retrying on a
    write conflict is the store client's, so [client_UpdateStatus] stands for
    the retried write. *)
Definition UpdateManagedClusterAddOnStatus {S : Type} (wall : Clock S)
  (client : AddOnClient S) (addOnNamespace addOnName : string) (condition : Condition)
  (s : S) : S * (bool * option error) :=
  match client_Get client addOnNamespace addOnName s with
  | inr err => (s, (false, Some err))
  | inl addOn =>
      let oldStatus := AddOnStatus addOn in
      let newStatus :=
        mkAddOnStatus (SetStatusCondition (Now wall s) (Conditions oldStatus) condition) in
      if decide (oldStatus = newStatus) then (s, (false, None))
      else
        match client_UpdateStatus client addOnNamespace (mkAddOn (addOnMeta addOn) newStatus) s with
        | (s', inr err) => (s', (false, Some err))
        | (s', inl _) => (s', (true, None))
        end
  end.

End helpers.

(** A hub whose informer caches have caught up with its store: the add-on
    lister and the add-on client read the same add-ons.  An add-on is stored
    under its namespace and name, which are therefore those of the object
    read back.  The lease lister and the injected clock are whatever the
    world says. *)
Module hub.

Record Stored := mkStored {
  storedAnnotations : gmap string string;
  storedStatus : ManagedClusterAddOnStatus
}.

Record World := mkWorld {
  addOns : gmap (string * string) Stored;
  leaseLookup : string -> string -> Lease + error;
  clockTime : Time;
  wallTime : Time
}.

Definition notFound : error := mkError StatusReasonNotFound "not found".

Definition object (key : string * string) (stored : Stored) : ManagedClusterAddOn :=
  mkAddOn (mkObjectMeta key.2 key.1 (storedAnnotations stored)) (storedStatus stored).

Definition get (namespace name : string) (w : World) : ManagedClusterAddOn + error :=
  match addOns w !! (namespace, name) with
  | Some stored => inl (object (namespace, name) stored)
  | None => inr notFound
  end.

Definition listNamespace (namespace : string) (w : World)
  : list ManagedClusterAddOn + error :=
  inl ((fun kv => object kv.1 kv.2) <$>
         filter (fun kv => kv.1.1 = namespace) (map_to_list (addOns w))).

(** [UpdateStatus] replaces the status of the stored object and nothing else. *)
Definition updateStatus (namespace : string) (addOn : ManagedClusterAddOn) (w : World)
  : World * (ManagedClusterAddOn + error) :=
  match addOns w !! (namespace, Name addOn) with
  | None => (w, inr notFound)
  | Some stored =>
      let updated := mkStored (storedAnnotations stored) (AddOnStatus addOn) in
      (mkWorld (<[(namespace, Name addOn) := updated]> (addOns w))
         (leaseLookup w) (clockTime w) (wallTime w),
       inl (object (namespace, Name addOn) updated))
  end.

Definition lister : ManagedClusterAddOnLister World := mkAddOnLister World listNamespace get.
Definition client : AddOnClient World := mkAddOnClient World get updateStatus.
Definition leases : LeaseLister World :=
  mkLeaseLister World (fun namespace name w => leaseLookup w namespace name).
Definition injectedClock : Clock World := mkClock World clockTime.
Definition wallClock : Clock World := mkClock World wallTime.

Definition controller (cluster : string) : managedClusterAddOnLeaseController World :=
  mkController World cluster injectedClock client lister leases.

(** [sync] of that controller, with the status helper as modelled above. *)
Definition sync (getAddOnConfig : ManagedClusterAddOn -> AddOnConfig + error)
  (cluster queueKey : string) : M World Empty_set :=
  addon.sync getAddOnConfig (helpers.UpdateManagedClusterAddOnStatus wallClock)
    (controller cluster) queueKey.

(** Two runs of [sync] for the same key, one after the other. *)
Definition syncTwice (getAddOnConfig : ManagedClusterAddOn -> AddOnConfig + error)
  (cluster queueKey : string) (w : World)
  : (World * list Effect * Exit) * (World * list Effect * Exit) :=
  let first := run (sync getAddOnConfig cluster queueKey) w in
  (first, run (sync getAddOnConfig cluster queueKey) first.1.1).

End hub.

(** ** Reading a trace *)

(** The namespace an add-on call is directed to, and the namespace a lease
    lookup is directed to. *)
Definition addOnNamespaceOf (e : Effect) : option string :=
  match e with
  | AddOnList namespace | AddOnGet namespace _ | UpdateStatus namespace _ _ => Some namespace
  | _ => None
  end.

Definition leaseNamespaceOf (e : Effect) : option string :=
  match e with
  | LeaseGet namespace _ => Some namespace
  | _ => None
  end.

Definition isLeaseGet (e : Effect) : bool :=
  match e with LeaseGet _ _ => true | _ => false end.

Definition withoutLeaseGets (t : list Effect) : list Effect :=
  List.filter (fun e => negb (isLeaseGet e)) t.

(** Whether [getAddOnConfig] succeeds on an add-on. *)
Definition configReadable (getAddOnConfig : ManagedClusterAddOn -> AddOnConfig + error)
  (addOn : ManagedClusterAddOn) : bool :=
  match getAddOnConfig addOn with
  | inl _ => true
  | inr _ => false
  end.

(** ** A small hub, for the examples *)

Module Examples.

Definition cluster : string := "cluster1".
Definition installNamespace : string := "open-cluster-management-agent-addon".
Definition helloKey : string := "open-cluster-management-agent-addon/helloworld".

(** A stand-in for [getAddOnConfig]: the installation namespace is read from
    an annotation of the add-on. *)
Definition annotationConfig (addOn : ManagedClusterAddOn) : AddOnConfig + error :=
  match Annotations addOn !! "installNamespace" with
  | Some namespace => inl (mkAddOnConfig namespace)
  | None => inr (mkError StatusReasonOther "no installation namespace")
  end.

Definition renewed : Time := 1600000000 * Second.

Definition helloLease (namespace : string) (renewTime : option Time) : Lease :=
  mkLease (mkObjectMeta "helloworld" namespace ∅) (mkLeaseSpec renewTime).

(** The lease lister's answer for the lease of helloworld; no other lease
    exists. *)
Definition leaseOf (answer : Lease + error) (namespace name : string) : Lease + error :=
  if String.eqb namespace installNamespace && String.eqb name "helloworld"
  then answer else inr hub.notFound.

Definition helloStored (conditions : list Condition) : hub.Stored :=
  hub.mkStored {[ "installNamespace" := installNamespace ]} (mkAddOnStatus conditions).

Definition helloworld (conditions : list Condition) : ManagedClusterAddOn :=
  hub.object (cluster, "helloworld") (helloStored conditions).

Definition world (conditions : list Condition) (answer : Lease + error) (now : Time)
  : hub.World :=
  hub.mkWorld {[ (cluster, "helloworld") := helloStored conditions ]}
    (leaseOf answer) now (now + 7).

Definition availableSince (since : Time) (message : string) : Condition :=
  {| Type_ := addOnAvailableConditionType; Status := ConditionTrue;
     ObservedGeneration := 0; LastTransitionTime := since;
     Reason := "ManagedClusterAddOnLeaseUpdated"; Message := message |}.

Definition cacheError : error := mkError StatusReasonOther "informer cache is not synced".

(** A lister that fails on every read. *)
Definition brokenLister : ManagedClusterAddOnLister hub.World :=
  mkAddOnLister hub.World (fun _ _ => inr cacheError) (fun _ _ _ => inr cacheError).

Definition brokenController : managedClusterAddOnLeaseController hub.World :=
  mkController hub.World cluster hub.injectedClock hub.client brokenLister hub.leases.

End Examples.

Module Scenarios.
Import Examples.

Definition freshLease : Lease := helloLease installNamespace (Some renewed).
Definition nilLease : Lease := helloLease installNamespace None.

(** helloworld has no condition yet, its lease was renewed 299 s ago. *)
Definition fresh : hub.World := world [] (inl freshLease) (renewed + 299 * Second).

(** helloworld is already reported available, with an older message, and
    its lease was renewed 10 s ago. *)
Definition reported : list Condition := [availableSince 5 "an older message"].
Definition steady : hub.World := world reported (inl freshLease) (renewed + 10 * Second).

(** The lease lister fails, and not with not-found. *)
Definition unsynced : hub.World := world [] (inr cacheError) (renewed + 10 * Second).

(** The lease of helloworld carries no renew time. *)
Definition unrenewed : hub.World := world [] (inl nilLease) (renewed + 10 * Second).

Definition availableNow : Condition :=
  newCondition addOnAvailableConditionType ConditionTrue
    "ManagedClusterAddOnLeaseUpdated"
    "Managed cluster addon agent updates its lease constantly.".



End Scenarios.

(** ** Counting the separators of a queue key *)

(** The number of "/" in a string: [strings.Split] gives one part more. *)
Fixpoint slashes (s : string) : nat :=
  match s with
  | EmptyString => 0%nat
  | String ch rest => ((if Ascii.eqb ch "/"%char then 1 else 0) + slashes rest)%nat
  end.

(** What an update of the availability condition may carry. *)
Definition isAvailabilityCondition (condition : Condition) : Prop :=
  Type_ condition = addOnAvailableConditionType /\
  (Status condition = ConditionTrue \/ Status condition = ConditionFalse \/
   Status condition = ConditionUnknown).

(** * Properties *)

Import addon.

(** ** The grace period *)

Lemma wrap64_small (z : Z) : - 2 ^ 63 <= z < 2 ^ 63 -> wrap64 z = z.
Proof.
  intros Hz. unfold wrap64.
  rewrite Z.mod_small by lia. lia.
Qed.

Lemma gracePeriod_300s : gracePeriod = 300 * Second.
Proof.
  unfold gracePeriod, leaseDurationTimes, leaseDurationSeconds, Duration_mul.
  rewrite (wrap64_small (5 * 60)) by (simpl; lia).
  apply wrap64_small. unfold Second. simpl. lia.
Qed.

(** ** The first condition of a type decides the comparison *)


(** Without that, a later condition of the type is not looked at. *)
Lemma IsStatusConditionPresentAndEqual_first_decides :
  IsStatusConditionPresentAndEqual
    [newCondition addOnAvailableConditionType ConditionFalse "" "";
     newCondition addOnAvailableConditionType ConditionTrue "" ""]
    addOnAvailableConditionType ConditionTrue = false.
Proof. reflexivity. Qed.

Section ControllerFacts.

Context {S : Type}.
Variable getAddOnConfig : ManagedClusterAddOn -> AddOnConfig + error.
Variable UpdateManagedClusterAddOnStatus :
  AddOnClient S -> string -> string -> Condition -> S -> S * (bool * option error).

Implicit Type c : managedClusterAddOnLeaseController S.
Implicit Type s : S.
Implicit Type addOn : ManagedClusterAddOn.
Implicit Type lease : Lease.

Local Abbreviation syncSingle := (addon.syncSingle UpdateManagedClusterAddOnStatus).
Local Abbreviation sync := (addon.sync getAddOnConfig UpdateManagedClusterAddOnStatus).
Local Abbreviation queueKeyFunc := (addon.queueKeyFunc getAddOnConfig).

(** *** The condition stage only reads *)

Lemma syncSingle_condition_reads c ns addOn s :
  (syncSingle_condition c ns addOn s).1.1 = s /\
  statusWrites (syncSingle_condition c ns addOn s).1.2 = [] /\
  events (syncSingle_condition c ns addOn s).1.2 = [] /\
  Forall (fun e => e = LeaseGet ns (Name addOn) \/ e = ClockNow)
    (syncSingle_condition c ns addOn s).1.2.
Proof.
  unfold syncSingle_condition, bind, getLease, clockNow, deref, ret, exit.
  destruct (Leases_Get (leaseLister c) ns (Name addOn) s) as [lease|err]; simpl.
  - destruct (RenewTime (Spec lease)) as [renew|]; simpl.
    + destruct (Time_Before _ _); simpl; repeat split; auto.
    + repeat split; auto.
  - destruct (IsNotFound err); simpl; repeat split; auto.
Qed.

(** *** What [syncSingle] does after the condition stage *)

Lemma syncSingle_left_early c ns addOn s s1 t1 e :
  syncSingle_condition c ns addOn s = (s1, t1, inr e) ->
  run (syncSingle c ns addOn) s = (s1, t1, e).
Proof.
  intros H. unfold run, addon.syncSingle, bind. now rewrite H.
Qed.

Lemma syncSingle_unchanged c ns addOn s s1 t1 condition :
  syncSingle_condition c ns addOn s = (s1, t1, inl condition) ->
  IsStatusConditionPresentAndEqual (Conditions (AddOnStatus addOn))
    (Type_ condition) (Status condition) = true ->
  run (syncSingle c ns addOn) s = (s1, t1, Return None).
Proof.
  intros H Heq. unfold run, addon.syncSingle, bind. rewrite H, Heq. simpl.
  now rewrite app_nil_r.
Qed.

Lemma syncSingle_update c ns addOn s s1 t1 condition s2 updated err :
  syncSingle_condition c ns addOn s = (s1, t1, inl condition) ->
  IsStatusConditionPresentAndEqual (Conditions (AddOnStatus addOn))
    (Type_ condition) (Status condition) = false ->
  UpdateManagedClusterAddOnStatus (addOnClient c) (clusterName c) (Name addOn) condition s1
    = (s2, (updated, err)) ->
  run (syncSingle c ns addOn) s =
    (s2,
     t1 ++ UpdateStatus (clusterName c) (Name addOn) condition ::
       match err with
       | Some _ => []
       | None => if updated then [statusUpdatedEvent addOn condition] else []
       end,
     Return err).
Proof.
  intros H Hne Hupd.
  unfold run, addon.syncSingle, bind, updateAddOnStatus. rewrite H, Hne, Hupd.
  destruct err as [e|]; simpl; [reflexivity|].
  destruct updated; reflexivity.
Qed.

(** *** The condition of a found lease *)

Lemma syncSingle_condition_found c ns addOn s lease renew :
  Leases_Get (leaseLister c) ns (Name addOn) s = inl lease ->
  RenewTime (Spec lease) = Some renew ->
  syncSingle_condition c ns addOn s
    = (s, [LeaseGet ns (Name addOn); ClockNow],
       inl (if Now (clock c) s <? renew + gracePeriod
            then newCondition addOnAvailableConditionType ConditionTrue
                   "ManagedClusterAddOnLeaseUpdated"
                   "Managed cluster addon agent updates its lease constantly."
            else newCondition addOnAvailableConditionType ConditionFalse
                   "ManagedClusterAddOnLeaseUpdateStopped"
                   "Managed cluster addon agent stopped updating its lease.")).
Proof.
  intros Hlease Hrenew.
  unfold syncSingle_condition, bind, getLease, clockNow.
  rewrite Hlease. simpl. rewrite Hrenew. simpl.
  unfold Time_Before, Time_Add.
  destruct (Now (clock c) s <? renew + gracePeriod); reflexivity.
Qed.

(** *** Claims on [syncSingle] *)

(** C1. For an add-on whose lease is found (and carries a renew time), the
    computed availability condition has status True with reason
    ManagedClusterAddOnLeaseUpdated exactly when the clock's now is strictly
    before renewTime + gracePeriod, and status False with reason
    ManagedClusterAddOnLeaseUpdateStopped otherwise, in particular at
    now = renewTime + gracePeriod; the grace period is 5 * 60 s = 300 s. *)
Theorem C1_condition_follows_lease_age c ns addOn s lease renew :
  Leases_Get (leaseLister c) ns (Name addOn) s = inl lease ->
  RenewTime (Spec lease) = Some renew ->
  exists condition,
    syncSingle_condition c ns addOn s
      = (s, [LeaseGet ns (Name addOn); ClockNow], inl condition) /\
    Type_ condition = addOnAvailableConditionType /\
    (Status condition = ConditionTrue /\ Reason condition = "ManagedClusterAddOnLeaseUpdated"
       <-> Now (clock c) s < renew + gracePeriod) /\
    (Status condition = ConditionFalse /\ Reason condition = "ManagedClusterAddOnLeaseUpdateStopped"
       <-> renew + gracePeriod <= Now (clock c) s) /\
    (Now (clock c) s = renew + gracePeriod -> Status condition = ConditionFalse) /\
    gracePeriod = 5 * 60 * Second /\ Second = 1000000000.
Proof.
  intros Hlease Hrenew.
  rewrite (syncSingle_condition_found c ns addOn s lease renew Hlease Hrenew).
  destruct (Z.ltb_spec (Now (clock c) s) (renew + gracePeriod)) as [Hlt|Hge].
  - eexists. split; [reflexivity|]. simpl.
    repeat split; auto; try lia; try discriminate.
    intros [Hst _]. discriminate Hst.
  - eexists. split; [reflexivity|]. simpl.
    repeat split; auto; try lia; try discriminate.
    intros [Hst _]. discriminate Hst.
Qed.


(** C5. [syncSingle] returns the error of the lease lookup if and only if the
    lookup fails with an error other than not-found, and then no condition
    is computed, no status write occurs and no event is emitted; when the
    lease is not found it goes on, without error, with the condition of
    status Unknown and reason ManagedClusterAddOnLeaseNotFound. *)
Theorem C5_lease_lookup_errors c ns addOn s :
  (forall err,
     Leases_Get (leaseLister c) ns (Name addOn) s = inr err ->
     IsNotFound err = false ->
     syncSingle_condition c ns addOn s
       = (s, [LeaseGet ns (Name addOn)], inr (Return (Some err))) /\
     run (syncSingle c ns addOn) s = (s, [LeaseGet ns (Name addOn)], Return (Some err))) /\
  (forall s' t err,
     syncSingle_condition c ns addOn s = (s', t, inr (Return (Some err))) ->
     Leases_Get (leaseLister c) ns (Name addOn) s = inr err /\ IsNotFound err = false) /\
  (forall err,
     Leases_Get (leaseLister c) ns (Name addOn) s = inr err ->
     IsNotFound err = true ->
     syncSingle_condition c ns addOn s
       = (s, [LeaseGet ns (Name addOn)],
          inl (newCondition addOnAvailableConditionType ConditionUnknown
                 "ManagedClusterAddOnLeaseNotFound"
                 "Managed cluster addon agent lease is not found."))).
Proof.
  split; [|split].
  - intros err Hget Hnf.
    assert (Hcond : syncSingle_condition c ns addOn s
                    = (s, [LeaseGet ns (Name addOn)], inr (Return (Some err)))).
    { unfold syncSingle_condition, bind, getLease. rewrite Hget. simpl.
      rewrite Hnf. reflexivity. }
    split; [exact Hcond|]. now apply syncSingle_left_early.
  - intros s' t err.
    unfold syncSingle_condition, bind, getLease, clockNow, deref, ret, exit.
    destruct (Leases_Get (leaseLister c) ns (Name addOn) s) as [lease|err0]; simpl.
    + destruct (RenewTime (Spec lease)); simpl; [|discriminate].
      destruct (Time_Before _ _); discriminate.
    + destruct (IsNotFound err0) eqn:Hnf; simpl; [discriminate|].
      intros [= _ _ <-]. auto.
  - intros err Hget Hnf.
    unfold syncSingle_condition, bind, getLease. rewrite Hget. simpl.
    rewrite Hnf. reflexivity.
Qed.

(** C6. When the conditional status update is reached: if it succeeds and
    reports a change, exactly one event is emitted, naming the add-on and
    the new status of its availability condition; if it fails, its error is
    returned and no event is emitted; if it succeeds and reports no change,
    no event is emitted. *)
Theorem C6_event_only_on_changed_update c ns addOn s t condition s' updated err :
  syncSingle_condition c ns addOn s = (s, t, inl condition) ->
  IsStatusConditionPresentAndEqual (Conditions (AddOnStatus addOn))
    (Type_ condition) (Status condition) = false ->
  UpdateManagedClusterAddOnStatus (addOnClient c) (clusterName c) (Name addOn) condition s
    = (s', (updated, err)) ->
  let r := run (syncSingle c ns addOn) s in
  r.1.1 = s' /\
  statusWrites r.1.2 = [UpdateStatus (clusterName c) (Name addOn) condition] /\
  (err = None -> updated = true ->
     r.2 = Return None /\
     events r.1.2 =
       [Eventf "ManagedClusterAddOnStatusUpdated"
          "update managed cluster addon %q available condition to %q, due to its lease is not updated constantly"
          [Name addOn; Status condition]]) /\
  (forall e, err = Some e -> r.2 = Return (Some e) /\ events r.1.2 = []) /\
  (err = None -> updated = false -> r.2 = Return None /\ events r.1.2 = []).
Proof.
  intros Hcond Hne Hupd r.
  pose proof (syncSingle_condition_reads c ns addOn s) as (_ & Hw & He & _).
  rewrite Hcond in Hw, He. simpl in Hw, He.
  subst r. rewrite (syncSingle_update _ _ _ _ _ _ _ _ _ _ Hcond Hne Hupd). simpl.
  unfold statusWrites, events in *.
  rewrite !List.filter_app, Hw, He. simpl.
  split; [reflexivity|].
  split.
  { destruct err; [reflexivity|]. destruct updated; reflexivity. }
  split; [|split].
  - intros -> ->. split; reflexivity.
  - intros e ->. split; reflexivity.
  - intros -> ->. split; reflexivity.
Qed.

(** C10. When the lease lookup succeeds, [syncSingle] dereferences the
    lease's renew time without a nil guard: it panics exactly when the found
    lease has a nil renew time, having computed no condition, written no
    status and returned no error. *)
Theorem C10_nil_renew_time_panics c ns addOn s lease :
  Leases_Get (leaseLister c) ns (Name addOn) s = inl lease ->
  ((run (syncSingle c ns addOn) s).2 = Panic <-> RenewTime (Spec lease) = None) /\
  (RenewTime (Spec lease) = None ->
     syncSingle_condition c ns addOn s
       = (s, [LeaseGet ns (Name addOn); ClockNow], inr Panic) /\
     run (syncSingle c ns addOn) s = (s, [LeaseGet ns (Name addOn); ClockNow], Panic)).
Proof.
  intros Hget.
  assert (Hnil : RenewTime (Spec lease) = None ->
     syncSingle_condition c ns addOn s
       = (s, [LeaseGet ns (Name addOn); ClockNow], inr Panic)).
  { intros Hnil. unfold syncSingle_condition, bind, getLease, clockNow.
    rewrite Hget. simpl. rewrite Hnil. reflexivity. }
  split; [split|].
  - destruct (RenewTime (Spec lease)) as [renew|] eqn:Hrenew; [|reflexivity].
    intros Hpanic. exfalso. revert Hpanic.
    pose proof (syncSingle_condition_found c ns addOn s lease renew Hget Hrenew) as Hcond.
    set (condition := if Now (clock c) s <? renew + gracePeriod then _ else _) in Hcond.
    destruct (IsStatusConditionPresentAndEqual (Conditions (AddOnStatus addOn))
                (Type_ condition) (Status condition)) eqn:Heq.
    + rewrite (syncSingle_unchanged _ _ _ _ _ _ _ Hcond Heq). discriminate.
    + destruct (UpdateManagedClusterAddOnStatus (addOnClient c) (clusterName c)
                  (Name addOn) condition s) as [s2 [updated err]] eqn:Hupd.
      rewrite (syncSingle_update _ _ _ _ _ _ _ _ _ _ Hcond Heq Hupd). discriminate.
  - intros Hnone. rewrite (syncSingle_left_early _ _ _ _ _ _ _ (Hnil Hnone)). reflexivity.
  - intros Hnone. split; [now apply Hnil|]. now apply syncSingle_left_early, Hnil.
Qed.

(** *** The trace of [syncSingle] *)

Lemma syncSingle_trace c ns addOn s :
  Forall (fun e => e = LeaseGet ns (Name addOn) \/ e = ClockNow \/
                   (exists condition, e = UpdateStatus (clusterName c) (Name addOn) condition) \/
                   (exists condition, e = statusUpdatedEvent addOn condition))
    (run (syncSingle c ns addOn) s).1.2.
Proof.
  pose proof (syncSingle_condition_reads c ns addOn s) as (Hs & _ & _ & Hreads).
  destruct (syncSingle_condition c ns addOn s) as [[s1 t1] [condition|e]] eqn:Hcond;
    simpl in Hs, Hreads; subst s1.
  - assert (Ht1 : Forall (fun e => e = LeaseGet ns (Name addOn) \/ e = ClockNow \/
                   (exists condition, e = UpdateStatus (clusterName c) (Name addOn) condition) \/
                   (exists condition, e = statusUpdatedEvent addOn condition)) t1).
    { eapply Forall_impl; [exact Hreads|]. intros e [->| ->]; auto. }
    destruct (IsStatusConditionPresentAndEqual (Conditions (AddOnStatus addOn))
                (Type_ condition) (Status condition)) eqn:Heq.
    + rewrite (syncSingle_unchanged _ _ _ _ _ _ _ Hcond Heq). exact Ht1.
    + destruct (UpdateManagedClusterAddOnStatus (addOnClient c) (clusterName c)
                  (Name addOn) condition s) as [s2 [updated err]] eqn:Hupd.
      rewrite (syncSingle_update _ _ _ _ _ _ _ _ _ _ Hcond Heq Hupd). simpl.
      apply Forall_app. split; [exact Ht1|].
      constructor; [eauto 6|].
      destruct err; [constructor|]. destruct updated; [|constructor].
      constructor; [eauto 6|constructor].
  - rewrite (syncSingle_left_early _ _ _ _ _ _ _ Hcond). simpl.
    eapply Forall_impl; [exact Hreads|]. intros e0 [->| ->]; auto.
Qed.

(** *** The two modes of [sync] *)

Lemma forEach_enqueue (addOns : list ManagedClusterAddOn) s :
  forEach addOns (fun addOn =>
    match getAddOnConfig addOn with
    | inr _ => ret tt
    | inl _ => emit (QueueAdd (ItemAddOn addOn))
    end) s
  = (s, map (fun addOn => QueueAdd (ItemAddOn addOn))
          (List.filter (configReadable getAddOnConfig) addOns), inl tt).
Proof.
  induction addOns as [|addOn rest IH]; [reflexivity|].
  simpl. unfold bind, configReadable at 1.
  destruct (getAddOnConfig addOn); simpl; rewrite IH; reflexivity.
Qed.

Lemma sync_resync c s :
  run (sync c DefaultQueueKey) s =
    match ManagedClusterAddOns_List (addOnLister c) (clusterName c) s with
    | inr err => (s, [AddOnList (clusterName c)], Return (Some err))
    | inl addOns =>
        (s, AddOnList (clusterName c) ::
              map (fun addOn => QueueAdd (ItemAddOn addOn))
                (List.filter (configReadable getAddOnConfig) addOns),
         Return None)
    end.
Proof.
  unfold run, addon.sync. simpl. unfold bind at 1, listAddOns.
  destruct (ManagedClusterAddOns_List (addOnLister c) (clusterName c) s) as [addOns|err];
    [|reflexivity].
  unfold bind. rewrite forEach_enqueue. simpl. now rewrite app_nil_r.
Qed.

(** The queue of a full resync: nothing when the listing fails, and else
    one object for each listed add-on whose configuration can be read. *)
Lemma sync_resync_queue c s :
  queueAdds (run (sync c DefaultQueueKey) s).1.2 =
    match ManagedClusterAddOns_List (addOnLister c) (clusterName c) s with
    | inr _ => []
    | inl addOns =>
        map (fun addOn => QueueAdd (ItemAddOn addOn))
          (List.filter (configReadable getAddOnConfig) addOns)
    end.
Proof.
  rewrite sync_resync.
  destruct (ManagedClusterAddOns_List (addOnLister c) (clusterName c) s) as [addOns|err];
    [|reflexivity].
  simpl. generalize (List.filter (configReadable getAddOnConfig) addOns).
  intros l. induction l as [|addOn rest IH]; [reflexivity|].
  simpl. now rewrite IH.
Qed.

Lemma sync_single c queueKey s ns name :
  queueKey <> DefaultQueueKey ->
  SplitMetaNamespaceKey queueKey = (ns, name, None) ->
  run (sync c queueKey) s =
    match ManagedClusterAddOns_Get (addOnLister c) (clusterName c) name s with
    | inr err =>
        (s, [AddOnGet (clusterName c) name],
         Return (if IsNotFound err then None else Some err))
    | inl addOn =>
        ((run (syncSingle c ns addOn) s).1.1,
         AddOnGet (clusterName c) name :: (run (syncSingle c ns addOn) s).1.2,
         (run (syncSingle c ns addOn) s).2)
    end.
Proof.
  intros Hkey Hsplit. unfold run at 1, addon.sync.
  apply String.eqb_neq in Hkey. rewrite Hkey, Hsplit.
  unfold bind at 1, getAddOn.
  destruct (ManagedClusterAddOns_Get (addOnLister c) (clusterName c) name s) as [addOn|err].
  - unfold run. destruct (addon.syncSingle _ c ns addOn s) as [[s2 t2] [[]|e]].
    reflexivity.
  - destruct (IsNotFound err); reflexivity.
Qed.

Lemma sync_malformed_key c queueKey s ns name err :
  queueKey <> DefaultQueueKey ->
  SplitMetaNamespaceKey queueKey = (ns, name, Some err) ->
  run (sync c queueKey) s = (s, [], Return None).
Proof.
  intros Hkey Hsplit. unfold run, addon.sync.
  apply String.eqb_neq in Hkey. rewrite Hkey, Hsplit. reflexivity.
Qed.

(** *** Claims on [queueKeyFunc] *)

(** C4. [queueKeyFunc] returns the empty string for a lease whose namespace
    differs from the installation namespace configured on its add-on, and
    namespace + "/" + name when the add-on named like the lease exists in the
    controller's cluster namespace, its configuration can be read and the
    lease's namespace is the configured installation namespace. *)
Theorem C4_queue_key_by_installation_namespace c lease s addOn config :
  ManagedClusterAddOns_Get (addOnLister c) (clusterName c) (Name lease) s = inl addOn ->
  getAddOnConfig addOn = inl config ->
  (Namespace lease <> InstallationNamespace config ->
     queueKeyFunc c lease s = (s, [AddOnGet (clusterName c) (Name lease)], inl "")) /\
  (Namespace lease = InstallationNamespace config ->
     queueKeyFunc c lease s
       = (s, [AddOnGet (clusterName c) (Name lease)],
          inl (Namespace lease ++ "/" ++ Name lease)%string)).
Proof.
  intros Hget Hconfig.
  unfold addon.queueKeyFunc, bind, getAddOn. rewrite Hget, Hconfig.
  split; intros Hns.
  - apply String.eqb_neq in Hns. rewrite Hns. reflexivity.
  - apply String.eqb_eq in Hns. rewrite Hns. reflexivity.
Qed.

(** C8. [queueKeyFunc] returns the empty key whenever the add-on lookup
    fails, with any error at all and not only not-found: the notification is
    dropped, nothing is propagated. *)
Theorem C8_queue_key_empty_on_any_lookup_error c lease s err :
  ManagedClusterAddOns_Get (addOnLister c) (clusterName c) (Name lease) s = inr err ->
  queueKeyFunc c lease s = (s, [AddOnGet (clusterName c) (Name lease)], inl "").
Proof.
  intros Hget. unfold addon.queueKeyFunc, bind, getAddOn. now rewrite Hget.
Qed.

(** *** The lease namespace only reaches the lease lookup *)

Lemma syncSingle_condition_namespace c ns1 ns2 addOn s :
  Leases_Get (leaseLister c) ns1 (Name addOn) s
    = Leases_Get (leaseLister c) ns2 (Name addOn) s ->
  exists t o,
    syncSingle_condition c ns1 addOn s = (s, LeaseGet ns1 (Name addOn) :: t, o) /\
    syncSingle_condition c ns2 addOn s = (s, LeaseGet ns2 (Name addOn) :: t, o).
Proof.
  intros Hsame. unfold syncSingle_condition, bind, getLease, clockNow, deref, ret, exit.
  rewrite Hsame.
  destruct (Leases_Get (leaseLister c) ns2 (Name addOn) s) as [lease|err]; simpl.
  - destruct (RenewTime (Spec lease)) as [renew|]; simpl.
    + destruct (Time_Before _ _); simpl; eauto.
    + eauto.
  - destruct (IsNotFound err); simpl; eauto.
Qed.

Lemma syncSingle_namespace c ns1 ns2 addOn s :
  Leases_Get (leaseLister c) ns1 (Name addOn) s
    = Leases_Get (leaseLister c) ns2 (Name addOn) s ->
  (run (syncSingle c ns1 addOn) s).1.1 = (run (syncSingle c ns2 addOn) s).1.1 /\
  (run (syncSingle c ns1 addOn) s).2 = (run (syncSingle c ns2 addOn) s).2 /\
  withoutLeaseGets (run (syncSingle c ns1 addOn) s).1.2
    = withoutLeaseGets (run (syncSingle c ns2 addOn) s).1.2.
Proof.
  intros Hsame.
  destruct (syncSingle_condition_namespace c ns1 ns2 addOn s Hsame) as (t & o & H1 & H2).
  destruct o as [condition|e].
  - destruct (IsStatusConditionPresentAndEqual (Conditions (AddOnStatus addOn))
                (Type_ condition) (Status condition)) eqn:Heq.
    + rewrite (syncSingle_unchanged _ _ _ _ _ _ _ H1 Heq),
              (syncSingle_unchanged _ _ _ _ _ _ _ H2 Heq). auto.
    + destruct (UpdateManagedClusterAddOnStatus (addOnClient c) (clusterName c)
                  (Name addOn) condition s) as [s2 [updated err]] eqn:Hupd.
      rewrite (syncSingle_update _ _ _ _ _ _ _ _ _ _ H1 Heq Hupd),
              (syncSingle_update _ _ _ _ _ _ _ _ _ _ H2 Heq Hupd). auto.
  - rewrite (syncSingle_left_early _ _ _ _ _ _ _ H1),
            (syncSingle_left_early _ _ _ _ _ _ _ H2). auto.
Qed.

(** *** Claims on [sync] *)

(** C9. Every add-on read and every add-on status update of [sync] and
    [syncSingle] goes to the controller's cluster namespace; the namespace
    of a per-resource queue key only reaches the lease lookup: it is the
    namespace of every lease lookup, and two lease namespaces in which the
    lookup answers the same give the same run but for that lookup. *)
Theorem C9_addon_calls_use_cluster_namespace c queueKey s :
  Forall (fun e => forall namespace, addOnNamespaceOf e = Some namespace ->
                   namespace = clusterName c)
    (run (sync c queueKey) s).1.2 /\
  (forall leaseNamespace addOn,
     Forall (fun e => forall namespace, addOnNamespaceOf e = Some namespace ->
                      namespace = clusterName c)
       (run (syncSingle c leaseNamespace addOn) s).1.2) /\
  (forall ns name,
     queueKey <> DefaultQueueKey ->
     SplitMetaNamespaceKey queueKey = (ns, name, None) ->
     Forall (fun e => forall namespace, leaseNamespaceOf e = Some namespace ->
                      namespace = ns)
       (run (sync c queueKey) s).1.2) /\
  (forall ns1 ns2 addOn,
     Leases_Get (leaseLister c) ns1 (Name addOn) s
       = Leases_Get (leaseLister c) ns2 (Name addOn) s ->
     (run (syncSingle c ns1 addOn) s).1.1 = (run (syncSingle c ns2 addOn) s).1.1 /\
     (run (syncSingle c ns1 addOn) s).2 = (run (syncSingle c ns2 addOn) s).2 /\
     withoutLeaseGets (run (syncSingle c ns1 addOn) s).1.2
       = withoutLeaseGets (run (syncSingle c ns2 addOn) s).1.2).
Proof.
  assert (Hsingle : forall leaseNamespace addOn,
     Forall (fun e => forall namespace, addOnNamespaceOf e = Some namespace ->
                      namespace = clusterName c)
       (run (syncSingle c leaseNamespace addOn) s).1.2).
  { intros ns addOn. eapply Forall_impl; [apply syncSingle_trace|].
    intros e [->|[->|[[condition ->]|[condition ->]]]] namespace; simpl;
      congruence. }
  split; [|split; [exact Hsingle|split]].
  - destruct (String.eqb_spec queueKey DefaultQueueKey) as [->|Hkey].
    + rewrite sync_resync.
      destruct (ManagedClusterAddOns_List (addOnLister c) (clusterName c) s) as [addOns|err];
        simpl.
      * constructor; [simpl; congruence|].
        apply Forall_forall. intros e He namespace.
        apply list_elem_of_In, in_map_iff in He as (addOn & <- & _). discriminate.
      * constructor; [simpl; congruence|constructor].
    + destruct (SplitMetaNamespaceKey queueKey) as [[ns name] [err|]] eqn:Hsplit.
      * rewrite (sync_malformed_key _ _ _ _ _ _ Hkey Hsplit). constructor.
      * rewrite (sync_single _ _ _ _ _ Hkey Hsplit).
        destruct (ManagedClusterAddOns_Get (addOnLister c) (clusterName c) name s)
          as [addOn|err]; simpl.
        -- constructor; [simpl; congruence|apply Hsingle].
        -- constructor; [simpl; congruence|constructor].
  - intros ns name Hkey Hsplit. rewrite (sync_single _ _ _ _ _ Hkey Hsplit).
    destruct (ManagedClusterAddOns_Get (addOnLister c) (clusterName c) name s)
      as [addOn|err]; simpl.
    + constructor; [discriminate|].
      eapply Forall_impl; [apply syncSingle_trace|].
      intros e [->|[->|[[condition ->]|[condition ->]]]] namespace; simpl;
        congruence.
    + constructor; [discriminate|constructor].
  - intros ns1 ns2 addOn. apply syncSingle_namespace.
Qed.

(** *** The condition stage depends on the lease, the clock and the name only *)

Lemma syncSingle_condition_ext c ns addOn1 addOn2 s1 s2 t o :
  Name addOn2 = Name addOn1 ->
  Leases_Get (leaseLister c) ns (Name addOn1) s2
    = Leases_Get (leaseLister c) ns (Name addOn1) s1 ->
  Now (clock c) s2 = Now (clock c) s1 ->
  syncSingle_condition c ns addOn1 s1 = (s1, t, o) ->
  syncSingle_condition c ns addOn2 s2 = (s2, t, o).
Proof.
  intros Hname Hlease Hnow.
  unfold syncSingle_condition, bind, getLease, clockNow, deref, ret, exit.
  rewrite Hname, Hlease.
  destruct (Leases_Get (leaseLister c) ns (Name addOn1) s1) as [lease|err]; simpl.
  - destruct (RenewTime (Spec lease)) as [renew|]; simpl.
    + rewrite Hnow. destruct (Time_Before _ _); simpl; intros [= <- <-]; reflexivity.
    + intros [= <- <-]; reflexivity.
  - destruct (IsNotFound err); simpl; intros [= <- <-]; reflexivity.
Qed.

End ControllerFacts.

(** ** The status helper on the hub *)

Lemma SetStatusCondition_present (now : Time) (conditions : list Condition)
  (condition : Condition) :
  IsStatusConditionPresentAndEqual (SetStatusCondition now conditions condition)
    (Type_ condition) (Status condition) = true.
Proof.
  induction conditions as [|existing rest IH]; simpl.
  - destruct (Time_IsZero _); simpl; rewrite !String.eqb_refl; reflexivity.
  - destruct (String.eqb (Type_ existing) (Type_ condition)) eqn:Hty; simpl.
    + destruct (String.eqb (Status existing) (Status condition)) eqn:Hst; simpl;
        rewrite Hty; [exact Hst|apply String.eqb_refl].
    + rewrite Hty. exact IH.
Qed.

Lemma SetStatusCondition_changes (now : Time) (conditions : list Condition)
  (condition : Condition) :
  IsStatusConditionPresentAndEqual conditions (Type_ condition) (Status condition) = false ->
  SetStatusCondition now conditions condition <> conditions.
Proof.
  induction conditions as [|existing rest IH]; simpl; intros Hne.
  - discriminate.
  - destruct (String.eqb (Type_ existing) (Type_ condition)) eqn:Hty.
    + rewrite Hne. simpl. intros [= Heq].
      apply String.eqb_neq in Hne. apply Hne.
      rewrite <- Heq at 1. reflexivity.
    + intros [= Heq]. now apply IH.
Qed.

Lemma hub_get_name (cluster name : string) (w : hub.World) (addOn : ManagedClusterAddOn) :
  hub.get cluster name w = inl addOn -> Name addOn = name.
Proof.
  unfold hub.get. destruct (hub.addOns w !! (cluster, name)); [|discriminate].
  intros [= <-]. reflexivity.
Qed.

(** A status update that is reached on the hub writes: the stored conditions
    become those that [SetStatusCondition] gives, and nothing else changes. *)
Lemma hub_update_writes (cluster name : string) (w : hub.World)
  (addOn : ManagedClusterAddOn) (condition : Condition) :
  hub.get cluster name w = inl addOn ->
  IsStatusConditionPresentAndEqual (Conditions (AddOnStatus addOn))
    (Type_ condition) (Status condition) = false ->
  exists w' addOn',
    helpers.UpdateManagedClusterAddOnStatus hub.wallClock hub.client cluster name condition w
      = (w', (true, None)) /\
    hub.get cluster name w' = inl addOn' /\
    Conditions (AddOnStatus addOn')
      = SetStatusCondition (hub.wallTime w) (Conditions (AddOnStatus addOn)) condition /\
    hub.leaseLookup w' = hub.leaseLookup w /\
    hub.clockTime w' = hub.clockTime w.
Proof.
  intros Hget Hne.
  unfold helpers.UpdateManagedClusterAddOnStatus. simpl. rewrite Hget.
  unfold hub.get in Hget.
  destruct (hub.addOns w !! (cluster, name)) as [stored|] eqn:Hstored; [|discriminate].
  injection Hget as <-. simpl in *.
  case_decide as Hsame.
  - exfalso. destruct (hub.storedStatus stored) as [conditions]. simpl in *.
    injection Hsame as Hsame.
    now apply (SetStatusCondition_changes (hub.wallTime w) conditions condition).
  - unfold hub.updateStatus. simpl. rewrite Hstored.
    eexists. eexists. split; [reflexivity|].
    unfold hub.get. simpl. rewrite lookup_insert_eq.
    split; [reflexivity|]. simpl. auto.
Qed.

(** ** What a full resync leaves in the trace *)

Lemma statusWrites_enqueues (addOns : list ManagedClusterAddOn) :
  statusWrites (map (fun addOn => QueueAdd (ItemAddOn addOn)) addOns) = [] /\
  events (map (fun addOn => QueueAdd (ItemAddOn addOn)) addOns) = [].
Proof.
  induction addOns as [|addOn rest [IHw IHe]]; [split; reflexivity|]. simpl. auto.
Qed.


(** ** Queue keys: joining and splitting *)

Lemma slashes_app (a b : string) :
  slashes (a ++ b)%string = (slashes a + slashes b)%nat.
Proof.
  induction a as [|ch a IH]; [reflexivity|].
  simpl. rewrite IH. lia.
Qed.

Lemma splitSlash_length (s : string) : length (splitSlash s) = Datatypes.S (slashes s).
Proof.
  induction s as [|ch s IH]; [reflexivity|].
  simpl. destruct (Ascii.eqb ch "/"%char); simpl.
  - now rewrite IH.
  - destruct (splitSlash s) as [|part parts]; [discriminate IH|].
    simpl in *. exact IH.
Qed.

Lemma splitSlash_bare (s : string) : slashes s = 0%nat -> splitSlash s = [s].
Proof.
  induction s as [|ch s IH]; [reflexivity|].
  simpl. destruct (Ascii.eqb ch "/"%char); [discriminate|].
  simpl. intros Hs. now rewrite (IH Hs).
Qed.

Lemma splitSlash_join (a b : string) :
  slashes a = 0%nat -> splitSlash (a ++ "/" ++ b)%string = a :: splitSlash b.
Proof.
  induction a as [|ch a IH]; [reflexivity|].
  simpl. destruct (Ascii.eqb ch "/"%char); [discriminate|].
  simpl. intros Ha. now rewrite (IH Ha).
Qed.

Lemma SplitMetaNamespaceKey_join (namespace name : string) :
  slashes namespace = 0%nat -> slashes name = 0%nat ->
  SplitMetaNamespaceKey (namespace ++ "/" ++ name)%string = (namespace, name, None).
Proof.
  intros Hns Hname. unfold SplitMetaNamespaceKey.
  now rewrite (splitSlash_join _ _ Hns), (splitSlash_bare _ Hname).
Qed.

Lemma SplitMetaNamespaceKey_bare (name : string) :
  slashes name = 0%nat -> SplitMetaNamespaceKey name = (EmptyString, name, None).
Proof.
  intros Hname. unfold SplitMetaNamespaceKey. now rewrite (splitSlash_bare _ Hname).
Qed.

Lemma SplitMetaNamespaceKey_malformed (key : string) :
  (2 <= slashes key)%nat ->
  exists err, SplitMetaNamespaceKey key = (EmptyString, EmptyString, Some err).
Proof.
  intros Hkey. pose proof (splitSlash_length key) as Hlen.
  unfold SplitMetaNamespaceKey.
  destruct (splitSlash key) as [|p1 [|p2 [|p3 rest]]]; simpl in Hlen; try lia.
  eauto.
Qed.

Lemma slashed_key_is_not_default (key : string) :
  (1 <= slashes key)%nat -> key <> DefaultQueueKey.
Proof. intros Hkey ->. simpl in Hkey. lia. Qed.

Section DispatchFacts.

Context {S : Type}.
Variable getAddOnConfig : ManagedClusterAddOn -> AddOnConfig + error.
Variable UpdateManagedClusterAddOnStatus :
  AddOnClient S -> string -> string -> Condition -> S -> S * (bool * option error).

Implicit Type c : managedClusterAddOnLeaseController S.
Implicit Type s : S.
Implicit Type addOn : ManagedClusterAddOn.
Implicit Type lease : Lease.

Local Abbreviation syncSingle := (addon.syncSingle UpdateManagedClusterAddOnStatus).
Local Abbreviation sync := (addon.sync getAddOnConfig UpdateManagedClusterAddOnStatus).
Local Abbreviation queueKeyFunc := (addon.queueKeyFunc getAddOnConfig).

(** *** [sync] on the three shapes of a key *)

(** X1. A key with two or more "/" is dropped: [sync] returns nil without
    a single call on the listers, the clock, the client, the recorder or
    the queue. *)
Theorem sync_drops_a_malformed_key c queueKey s :
  (2 <= slashes queueKey)%nat ->
  run (sync c queueKey) s = (s, [], Return None).
Proof.
  intros Hkey.
  destruct (SplitMetaNamespaceKey_malformed queueKey Hkey) as [err Hsplit].
  eapply sync_malformed_key; [|exact Hsplit].
  apply slashed_key_is_not_default. lia.
Qed.

(** X2. On the key namespace + "/" + name (neither part holding a "/"),
    [sync] gets the add-on called name from the cluster namespace. If that
    fails, it stops there, with nil when the add-on is not found (it was
    deleted) and with the error otherwise; if it succeeds, the rest of the
    run is [syncSingle] on that add-on with the key's namespace as the
    namespace of the lease. *)
Theorem sync_on_a_namespaced_key c namespace name s :
  slashes namespace = 0%nat -> slashes name = 0%nat ->
  run (sync c (namespace ++ "/" ++ name)%string) s =
    match ManagedClusterAddOns_Get (addOnLister c) (clusterName c) name s with
    | inr err =>
        (s, [AddOnGet (clusterName c) name],
         Return (if IsNotFound err then None else Some err))
    | inl addOn =>
        ((run (syncSingle c namespace addOn) s).1.1,
         AddOnGet (clusterName c) name :: (run (syncSingle c namespace addOn) s).1.2,
         (run (syncSingle c namespace addOn) s).2)
    end.
Proof.
  intros Hns Hname.
  apply sync_single; [|now apply SplitMetaNamespaceKey_join].
  apply slashed_key_is_not_default. rewrite !slashes_app. simpl. lia.
Qed.

(** X3. A key without "/", other than the resync key, is taken as a bare
    name: the add-on of that name is read from the cluster namespace and its
    lease is looked up in the namespace with the empty name. *)
Theorem sync_on_a_bare_key c queueKey s addOn :
  slashes queueKey = 0%nat ->
  queueKey <> DefaultQueueKey ->
  ManagedClusterAddOns_Get (addOnLister c) (clusterName c) queueKey s = inl addOn ->
  exists rest,
    (run (sync c queueKey) s).1.2
      = AddOnGet (clusterName c) queueKey :: LeaseGet "" (Name addOn) :: rest /\
    run (sync c queueKey) s =
      ((run (syncSingle c "" addOn) s).1.1,
       AddOnGet (clusterName c) queueKey :: (run (syncSingle c "" addOn) s).1.2,
       (run (syncSingle c "" addOn) s).2).
Proof.
  intros Hbare Hkey Hget.
  pose proof (sync_single getAddOnConfig UpdateManagedClusterAddOnStatus c queueKey s
                _ _ Hkey (SplitMetaNamespaceKey_bare _ Hbare)) as Hrun.
  rewrite Hget in Hrun. rewrite Hrun. simpl.
  destruct (syncSingle_condition_namespace c "" "" addOn s eq_refl) as (t & o & Hcond & _).
  destruct o as [condition|e].
  - destruct (IsStatusConditionPresentAndEqual (Conditions (AddOnStatus addOn))
                (Type_ condition) (Status condition)) eqn:Heq.
    + rewrite (syncSingle_unchanged _ _ _ _ _ _ _ _ Hcond Heq). simpl. eauto.
    + destruct (UpdateManagedClusterAddOnStatus (addOnClient c) (clusterName c)
                  (Name addOn) condition s) as [s2 [updated err]] eqn:Hupd.
      rewrite (syncSingle_update _ _ _ _ _ _ _ _ _ _ _ Hcond Heq Hupd). simpl. eauto.
  - rewrite (syncSingle_left_early _ _ _ _ _ _ _ _ Hcond). simpl. eauto.
Qed.


(** *** [queueKeyFunc], alone and before [sync] *)

Lemma queueKeyFunc_cases c lease s :
  queueKeyFunc c lease s =
    (s, [AddOnGet (clusterName c) (Name lease)],
     inl match ManagedClusterAddOns_Get (addOnLister c) (clusterName c) (Name lease) s with
         | inr _ => ""
         | inl addOn =>
             match getAddOnConfig addOn with
             | inr _ => ""
             | inl config =>
                 if String.eqb (Namespace lease) (InstallationNamespace config)
                 then (Namespace lease ++ "/" ++ Name lease)%string else ""
             end
         end).
Proof.
  unfold addon.queueKeyFunc, bind, getAddOn.
  destruct (ManagedClusterAddOns_Get (addOnLister c) (clusterName c) (Name lease) s)
    as [addOn|err]; simpl; [|reflexivity].
  destruct (getAddOnConfig addOn) as [config|err]; simpl; [|reflexivity].
  destruct (String.eqb (Namespace lease) (InstallationNamespace config)); reflexivity.
Qed.

Lemma joined_key_is_not_default (namespace name : string) :
  (namespace ++ "/" ++ name)%string <> DefaultQueueKey.
Proof. apply slashed_key_is_not_default. rewrite !slashes_app. simpl. lia. Qed.

Lemma syncSingle_starts_with_the_lease c ns addOn s :
  exists rest, (run (syncSingle c ns addOn) s).1.2 = LeaseGet ns (Name addOn) :: rest.
Proof.
  destruct (syncSingle_condition_namespace c ns ns addOn s eq_refl) as (t & o & Hcond & _).
  destruct o as [condition|e].
  - destruct (IsStatusConditionPresentAndEqual (Conditions (AddOnStatus addOn))
                (Type_ condition) (Status condition)) eqn:Heq.
    + rewrite (syncSingle_unchanged _ _ _ _ _ _ _ _ Hcond Heq). simpl. eauto.
    + destruct (UpdateManagedClusterAddOnStatus (addOnClient c) (clusterName c)
                  (Name addOn) condition s) as [s2 [updated err]] eqn:Hupd.
      rewrite (syncSingle_update _ _ _ _ _ _ _ _ _ _ _ Hcond Heq Hupd). simpl. eauto.
  - rewrite (syncSingle_left_early _ _ _ _ _ _ _ _ Hcond). simpl. eauto.
Qed.

(** X4. [queueKeyFunc] only reads: it makes one call, the Get of the add-on
    named like the lease in the cluster namespace, and leaves the state as
    it is. Its key is never the resync key: a lease notification cannot
    start a full resync. *)
Theorem queueKeyFunc_reads_once_and_never_asks_for_a_resync c lease s :
  (queueKeyFunc c lease s).1.1 = s /\
  (queueKeyFunc c lease s).1.2 = [AddOnGet (clusterName c) (Name lease)] /\
  exists key, (queueKeyFunc c lease s).2 = inl key /\ key <> DefaultQueueKey /\
              (key = "" \/ key = (Namespace lease ++ "/" ++ Name lease)%string).
Proof.
  rewrite queueKeyFunc_cases. simpl.
  split; [reflexivity|]. split; [reflexivity|].
  eexists. split; [reflexivity|].
  destruct (ManagedClusterAddOns_Get (addOnLister c) (clusterName c) (Name lease) s)
    as [addOn|err]; [|split; [discriminate|auto]].
  destruct (getAddOnConfig addOn) as [config|err]; [|split; [discriminate|auto]].
  destruct (String.eqb (Namespace lease) (InstallationNamespace config));
    [|split; [discriminate|auto]].
  split; [apply joined_key_is_not_default|auto].
Qed.

(** X5. [queueKeyFunc] gives a key other than the empty one exactly when
    the add-on named like the lease is found in the cluster namespace, its
    configuration can be read, and the lease lies in the installation
    namespace of that configuration; an unreadable configuration gives the
    empty key like a missing add-on does. *)
Theorem queueKeyFunc_key_iff c lease s :
  (queueKeyFunc c lease s).2 <> inl "" <->
  exists addOn config,
    ManagedClusterAddOns_Get (addOnLister c) (clusterName c) (Name lease) s = inl addOn /\
    getAddOnConfig addOn = inl config /\
    Namespace lease = InstallationNamespace config.
Proof.
  rewrite queueKeyFunc_cases. simpl.
  destruct (ManagedClusterAddOns_Get (addOnLister c) (clusterName c) (Name lease) s)
    as [addOn|err].
  - destruct (getAddOnConfig addOn) as [config|err] eqn:Hconfig.
    + destruct (String.eqb_spec (Namespace lease) (InstallationNamespace config))
        as [Heq|Hne].
      * split; [eauto|]. intros _ [= Hkey].
        destruct (Namespace lease); discriminate Hkey.
      * split; [congruence|].
        intros (addOn' & config' & [= <-] & Hconfig' & Heq).
        rewrite Hconfig in Hconfig'. injection Hconfig' as <-. contradiction.
    + split; [congruence|].
      intros (addOn' & config' & [= <-] & Hconfig' & _). congruence.
  - split; [congruence|]. intros (addOn' & config' & Hget & _). discriminate.
Qed.

(** X6. The key that [queueKeyFunc] gives for a lease brings [sync] back to
    that lease: when the lease's namespace and name hold no "/", [sync] on
    that key reads the same add-on and then runs [syncSingle] with the
    lease's namespace, so that the lease looked up is the one in the
    notified lease's namespace, under the add-on's name. *)
Theorem sync_on_the_key_of_a_lease c lease s key addOn :
  (queueKeyFunc c lease s).2 = inl key -> key <> "" ->
  slashes (Namespace lease) = 0%nat -> slashes (Name lease) = 0%nat ->
  ManagedClusterAddOns_Get (addOnLister c) (clusterName c) (Name lease) s = inl addOn ->
  SplitMetaNamespaceKey key = (Namespace lease, Name lease, None) /\
  run (sync c key) s =
    ((run (syncSingle c (Namespace lease) addOn) s).1.1,
     AddOnGet (clusterName c) (Name lease) :: (run (syncSingle c (Namespace lease) addOn) s).1.2,
     (run (syncSingle c (Namespace lease) addOn) s).2) /\
  exists rest,
    (run (syncSingle c (Namespace lease) addOn) s).1.2
      = LeaseGet (Namespace lease) (Name addOn) :: rest.
Proof.
  intros Hkey Hne Hns Hname Hget.
  rewrite queueKeyFunc_cases, Hget in Hkey. simpl in Hkey.
  assert (Hjoin : key = (Namespace lease ++ "/" ++ Name lease)%string).
  { destruct (getAddOnConfig addOn) as [config|err]; [|congruence].
    destruct (String.eqb (Namespace lease) (InstallationNamespace config)); congruence. }
  subst key.
  pose proof (SplitMetaNamespaceKey_join _ _ Hns Hname) as Hsplit.
  split; [exact Hsplit|]. split.
  - rewrite (sync_single getAddOnConfig UpdateManagedClusterAddOnStatus c _ s _ _
               (joined_key_is_not_default _ _) Hsplit), Hget.
    reflexivity.
  - apply syncSingle_starts_with_the_lease.
Qed.


(** *** [syncSingle]: what it sends, what it returns *)

Lemma syncSingle_condition_cases c ns addOn s :
  syncSingle_condition c ns addOn s =
    match Leases_Get (leaseLister c) ns (Name addOn) s with
    | inr err =>
        (s, [LeaseGet ns (Name addOn)],
         if IsNotFound err
         then inl (newCondition addOnAvailableConditionType ConditionUnknown
                     "ManagedClusterAddOnLeaseNotFound"
                     "Managed cluster addon agent lease is not found.")
         else inr (Return (Some err)))
    | inl lease =>
        (s, [LeaseGet ns (Name addOn); ClockNow],
         match RenewTime (Spec lease) with
         | None => inr Panic
         | Some renew =>
             inl (if Now (clock c) s <? renew + gracePeriod
                  then newCondition addOnAvailableConditionType ConditionTrue
                         "ManagedClusterAddOnLeaseUpdated"
                         "Managed cluster addon agent updates its lease constantly."
                  else newCondition addOnAvailableConditionType ConditionFalse
                         "ManagedClusterAddOnLeaseUpdateStopped"
                         "Managed cluster addon agent stopped updating its lease.")
         end)
    end.
Proof.
  unfold syncSingle_condition, bind, getLease, clockNow, deref, ret, exit,
    Time_Before, Time_Add.
  destruct (Leases_Get (leaseLister c) ns (Name addOn) s) as [lease|err]; simpl.
  - destruct (RenewTime (Spec lease)) as [renew|]; simpl; [|reflexivity].
    destruct (Now (clock c) s <? renew + gracePeriod); reflexivity.
  - destruct (IsNotFound err); reflexivity.
Qed.

Lemma syncSingle_condition_kind c ns addOn s s1 t condition :
  syncSingle_condition c ns addOn s = (s1, t, inl condition) ->
  isAvailabilityCondition condition.
Proof.
  rewrite syncSingle_condition_cases. unfold isAvailabilityCondition.
  destruct (Leases_Get (leaseLister c) ns (Name addOn) s) as [lease|err].
  - destruct (RenewTime (Spec lease)) as [renew|]; [|discriminate].
    destruct (Now (clock c) s <? renew + gracePeriod); intros [= _ _ <-]; simpl; auto.
  - destruct (IsNotFound err); [|discriminate]. intros [= _ _ <-]; simpl; auto.
Qed.

(** The three ways through [syncSingle]. *)
Lemma syncSingle_cases c ns addOn s :
  (exists t e,
     syncSingle_condition c ns addOn s = (s, t, inr e) /\
     run (syncSingle c ns addOn) s = (s, t, e)) \/
  (exists t condition,
     syncSingle_condition c ns addOn s = (s, t, inl condition) /\
     IsStatusConditionPresentAndEqual (Conditions (AddOnStatus addOn))
       (Type_ condition) (Status condition) = true /\
     run (syncSingle c ns addOn) s = (s, t, Return None)) \/
  (exists t condition s2 updated err,
     syncSingle_condition c ns addOn s = (s, t, inl condition) /\
     IsStatusConditionPresentAndEqual (Conditions (AddOnStatus addOn))
       (Type_ condition) (Status condition) = false /\
     UpdateManagedClusterAddOnStatus (addOnClient c) (clusterName c) (Name addOn)
       condition s = (s2, (updated, err)) /\
     run (syncSingle c ns addOn) s =
       (s2,
        t ++ UpdateStatus (clusterName c) (Name addOn) condition ::
          match err with
          | Some _ => []
          | None => if updated then [statusUpdatedEvent addOn condition] else []
          end,
        Return err)).
Proof.
  pose proof (syncSingle_condition_reads c ns addOn s) as (Hs & _).
  destruct (syncSingle_condition c ns addOn s) as [[s1 t] [condition|e]] eqn:Hcond;
    simpl in Hs; subst s1.
  - destruct (IsStatusConditionPresentAndEqual (Conditions (AddOnStatus addOn))
                (Type_ condition) (Status condition)) eqn:Heq.
    + right. left. exists t, condition. repeat split; auto.
      now apply (syncSingle_unchanged _ c ns addOn s s t condition).
    + right. right.
      destruct (UpdateManagedClusterAddOnStatus (addOnClient c) (clusterName c)
                  (Name addOn) condition s) as [s2 [updated err]] eqn:Hupd.
      exists t, condition, s2, updated, err. repeat split; auto.
      now apply (syncSingle_update _ c ns addOn s s t condition).
  - left. exists t, e. split; [reflexivity|].
    now apply (syncSingle_left_early _ c ns addOn s s t e).
Qed.

Lemma condition_trace_filters c ns addOn s s1 t o :
  syncSingle_condition c ns addOn s = (s1, t, o) ->
  statusWrites t = [] /\ events t = [] /\ queueAdds t = [] /\
  (forall namespace name condition, ~ In (UpdateStatus namespace name condition) t).
Proof using Type.
  rewrite syncSingle_condition_cases.
  destruct (Leases_Get (leaseLister c) ns (Name addOn) s) as [lease|err];
    intros [= _ <- _]; repeat split; auto;
    intros namespace name condition Hin; simpl in Hin;
    repeat (destruct Hin as [Hin|Hin]; [discriminate|]); destruct Hin.
Qed.

(** X7. A run of [syncSingle] sends at most one status update and records at
    most one event, and no event without an update; it adds nothing to the
    queue. The update it sends is for the add-on's own name and carries a
    condition of the availability type with status True, False or Unknown.
    Without an update, the state is left as it was. *)
Theorem syncSingle_sends_at_most_one_update c ns addOn s :
  (length (statusWrites (run (syncSingle c ns addOn) s).1.2) <= 1)%nat /\
  (length (events (run (syncSingle c ns addOn) s).1.2)
     <= length (statusWrites (run (syncSingle c ns addOn) s).1.2))%nat /\
  queueAdds (run (syncSingle c ns addOn) s).1.2 = [] /\
  (forall namespace name condition,
     In (UpdateStatus namespace name condition) (run (syncSingle c ns addOn) s).1.2 ->
     name = Name addOn /\ isAvailabilityCondition condition) /\
  (statusWrites (run (syncSingle c ns addOn) s).1.2 = [] ->
     (run (syncSingle c ns addOn) s).1.1 = s).
Proof using Type.
  destruct (syncSingle_cases c ns addOn s)
    as [(t & e & Hcond & ->)|[(t & condition & Hcond & Heq & ->)
       |(t & condition & s2 & updated & err & Hcond & Heq & Hupd & ->)]];
    destruct (condition_trace_filters _ _ _ _ _ _ _ Hcond) as (Hw & He & Hq & Hno); simpl.
  - rewrite Hw, He, Hq. simpl. repeat split; auto; try lia.
    all: intros; exfalso; eapply Hno; eauto.
  - rewrite Hw, He, Hq. simpl. repeat split; auto; try lia.
    all: intros; exfalso; eapply Hno; eauto.
  - unfold statusWrites, events, queueAdds in *.
    rewrite !List.filter_app, Hw, He, Hq. simpl.
    assert (Hev : forall l : list Effect,
              l = match err with
                  | Some _ => []
                  | None => if updated then [statusUpdatedEvent addOn condition] else []
                  end ->
              List.filter isStatusWrite l = [] /\ List.filter isQueueAdd l = [] /\
              (length (List.filter isEvent l) <= 1)%nat /\
              (forall namespace name condition', ~ In (UpdateStatus namespace name condition') l)).
    { intros l ->. destruct err; [|destruct updated]; simpl; repeat split; auto;
        intros namespace name condition' Hin; simpl in Hin;
    repeat (destruct Hin as [Hin|Hin]; [discriminate|]); destruct Hin. }
    destruct (Hev _ eq_refl) as (Hw' & Hq' & He' & Hno').
    rewrite Hw', Hq'. simpl.
    split; [lia|]. split; [exact He'|]. split; [reflexivity|]. split; [|discriminate].
    intros namespace name condition' Hin.
    apply in_app_or in Hin as [Hin|[Hin|Hin]].
    + exfalso. eapply Hno; eauto.
    + injection Hin as <- <- <-. split; [reflexivity|].
      eapply syncSingle_condition_kind; eauto.
    + exfalso. eapply Hno'; eauto.
Qed.

(** X8. An error returned by [syncSingle] is the error of the lease lookup
    (one that is not not-found, and then nothing was sent) or the error the
    status update returned (and then no event was recorded): it makes up no
    error of its own. *)
Theorem syncSingle_error_comes_from_the_lookup_or_the_update c ns addOn s err :
  (run (syncSingle c ns addOn) s).2 = Return (Some err) ->
  (Leases_Get (leaseLister c) ns (Name addOn) s = inr err /\ IsNotFound err = false /\
   (run (syncSingle c ns addOn) s).1.2 = [LeaseGet ns (Name addOn)] /\
   (run (syncSingle c ns addOn) s).1.1 = s) \/
  (exists condition updated,
     isAvailabilityCondition condition /\
     UpdateManagedClusterAddOnStatus (addOnClient c) (clusterName c) (Name addOn)
       condition s = ((run (syncSingle c ns addOn) s).1.1, (updated, Some err)) /\
     events (run (syncSingle c ns addOn) s).1.2 = []).
Proof using Type.
  destruct (syncSingle_cases c ns addOn s)
    as [(t & e & Hcond & ->)|[(t & condition & Hcond & Heq & ->)
       |(t & condition & s2 & updated & err' & Hcond & Heq & Hupd & ->)]]; simpl.
  - intros ->. left. revert Hcond. rewrite syncSingle_condition_cases.
    destruct (Leases_Get (leaseLister c) ns (Name addOn) s) as [lease|err0].
    + destruct (RenewTime (Spec lease)); discriminate.
    + destruct (IsNotFound err0) eqn:Hnf; [discriminate|].
      intros [= <- <-]. auto.
  - discriminate.
  - intros [= ->]. right. exists condition, updated.
    split; [eapply syncSingle_condition_kind; eauto|]. split; [exact Hupd|].
    destruct (condition_trace_filters _ _ _ _ _ _ _ Hcond) as (_ & He & _).
    unfold events in *. rewrite List.filter_app, He. reflexivity.
Qed.


Lemma IsStatusConditionPresentAndEqual_found (conditions : list Condition)
  (ty : string) (st : ConditionStatus) :
  IsStatusConditionPresentAndEqual conditions ty st = true ->
  exists stored, In stored conditions /\ Type_ stored = ty /\ Status stored = st.
Proof.
  induction conditions as [|first rest IH]; simpl; [discriminate|].
  destruct (String.eqb_spec (Type_ first) ty) as [Hty|Hty].
  - intros Hst. apply String.eqb_eq in Hst. exists first. auto.
  - intros Hrest. destruct (IH Hrest) as (stored & Hin & H1 & H2).
    exists stored. auto.
Qed.

(** X9. When no stored condition has both the type and the status of the
    computed condition, [syncSingle] sends the status update, once, for the
    add-on's name in the cluster namespace and with the computed condition:
    a new add-on and an add-on whose status is out of date are both
    reported. *)
Theorem syncSingle_reports_a_changed_status c ns addOn s t condition :
  syncSingle_condition c ns addOn s = (s, t, inl condition) ->
  (forall stored, In stored (Conditions (AddOnStatus addOn)) ->
                  Type_ stored = Type_ condition -> Status stored <> Status condition) ->
  statusWrites (run (syncSingle c ns addOn) s).1.2
    = [UpdateStatus (clusterName c) (Name addOn) condition].
Proof using Type.
  intros Hcond Hnone.
  assert (Heq : IsStatusConditionPresentAndEqual (Conditions (AddOnStatus addOn))
                  (Type_ condition) (Status condition) = false).
  { destruct (IsStatusConditionPresentAndEqual _ _ _) eqn:Heq; [|reflexivity].
    destruct (IsStatusConditionPresentAndEqual_found _ _ _ Heq) as (stored & Hin & Hty & Hst).
    exfalso. exact (Hnone stored Hin Hty Hst). }
  destruct (UpdateManagedClusterAddOnStatus (addOnClient c) (clusterName c)
              (Name addOn) condition s) as [s2 [updated err]] eqn:Hupd.
  rewrite (syncSingle_update _ _ _ _ _ _ _ _ _ _ _ Hcond Heq Hupd). simpl.
  destruct (condition_trace_filters _ _ _ _ _ _ _ Hcond) as (Hw & _).
  unfold statusWrites in *. rewrite List.filter_app, Hw. simpl.
  destruct err; [reflexivity|]. destruct updated; reflexivity.
Qed.

(** X10. Availability is monotone in the age of the lease (the clock's now
    minus the renew time): if the add-on is found available at some age it
    is found available at any smaller age, and if it is found unavailable
    it stays so at any greater age, until the lease is renewed. *)
Theorem availability_is_monotone_in_lease_age
  c ns addOn s1 s2 lease1 lease2 renew1 renew2 :
  Leases_Get (leaseLister c) ns (Name addOn) s1 = inl lease1 ->
  RenewTime (Spec lease1) = Some renew1 ->
  Leases_Get (leaseLister c) ns (Name addOn) s2 = inl lease2 ->
  RenewTime (Spec lease2) = Some renew2 ->
  Now (clock c) s1 - renew1 <= Now (clock c) s2 - renew2 ->
  exists condition1 condition2,
    (syncSingle_condition c ns addOn s1).2 = inl condition1 /\
    (syncSingle_condition c ns addOn s2).2 = inl condition2 /\
    (Status condition2 = ConditionTrue -> Status condition1 = ConditionTrue) /\
    (Status condition1 = ConditionFalse -> Status condition2 = ConditionFalse).
Proof.
  intros Hl1 Hr1 Hl2 Hr2 Hage.
  rewrite !syncSingle_condition_cases, Hl1, Hl2, Hr1, Hr2. simpl.
  eexists. eexists. split; [reflexivity|]. split; [reflexivity|].
  destruct (Z.ltb_spec (Now (clock c) s1) (renew1 + gracePeriod));
    destruct (Z.ltb_spec (Now (clock c) s2) (renew2 + gracePeriod)); simpl;
    split; auto; try discriminate; lia.
Qed.

(** X11. Of the add-on it is given, [syncSingle] uses the name and the
    stored conditions and nothing else: two add-ons that agree on these
    (whatever their own namespace and annotations) give the same run. *)
Theorem syncSingle_uses_name_and_conditions_only c ns addOn1 addOn2 s :
  Name addOn1 = Name addOn2 ->
  Conditions (AddOnStatus addOn1) = Conditions (AddOnStatus addOn2) ->
  run (syncSingle c ns addOn1) s = run (syncSingle c ns addOn2) s.
Proof.
  intros Hname Hconds.
  unfold run, addon.syncSingle, syncSingle_condition, statusUpdatedEvent.
  rewrite Hname, Hconds. reflexivity.
Qed.

(** X12. The two modes of [sync] keep apart. A full resync looks up no
    lease, reads no clock, sends no status update, records no event, leaves
    the state as it is and cannot panic; a run for any other key lists
    nothing and adds nothing to the queue. *)
Theorem sync_modes_keep_apart c queueKey s :
  (queueKey = DefaultQueueKey ->
     (run (sync c queueKey) s).1.1 = s /\
     (run (sync c queueKey) s).2 <> Panic /\
     Forall (fun e => e = AddOnList (clusterName c) \/ isQueueAdd e = true)
       (run (sync c queueKey) s).1.2) /\
  (queueKey <> DefaultQueueKey ->
     queueAdds (run (sync c queueKey) s).1.2 = [] /\
     Forall (fun e => forall namespace, e <> AddOnList namespace)
       (run (sync c queueKey) s).1.2).
Proof.
  split.
  - intros ->. rewrite sync_resync.
    destruct (ManagedClusterAddOns_List (addOnLister c) (clusterName c) s) as [addOns|err];
      simpl.
    + split; [reflexivity|]. split; [discriminate|].
      constructor; [auto|]. apply Forall_forall. intros e He.
      apply list_elem_of_In, in_map_iff in He as (addOn & <- & _). auto.
    + split; [reflexivity|]. split; [discriminate|]. constructor; auto.
  - intros Hkey.
    destruct (SplitMetaNamespaceKey queueKey) as [[ns name] [err|]] eqn:Hsplit.
    + rewrite (sync_malformed_key _ _ _ _ _ _ _ _ Hkey Hsplit). simpl. auto.
    + rewrite (sync_single _ _ _ _ _ _ _ Hkey Hsplit).
      destruct (ManagedClusterAddOns_Get (addOnLister c) (clusterName c) name s)
        as [addOn|err]; simpl.
      * pose proof (syncSingle_trace UpdateManagedClusterAddOnStatus c ns addOn s) as Htrace.
        split.
        -- unfold queueAdds. induction Htrace as [|e l He _ IH]; [reflexivity|].
           simpl. destruct He as [->|[->|[[condition ->]|[condition ->]]]]; simpl; exact IH.
        -- constructor; [discriminate|].
           eapply Forall_impl; [exact Htrace|].
           intros e [->|[->|[[condition ->]|[condition ->]]]] namespace; discriminate.
      * split; [reflexivity|]. constructor; [discriminate|constructor].
Qed.


End DispatchFacts.

(** ** Two runs in a row *)

Section TwoRuns.

Context {S : Type}.
Variable getAddOnConfig : ManagedClusterAddOn -> AddOnConfig + error.
Variable UpdateManagedClusterAddOnStatus :
  AddOnClient S -> string -> string -> Condition -> S -> S * (bool * option error).

Implicit Type c : managedClusterAddOnLeaseController S.
Implicit Type s : S.
Implicit Type addOn : ManagedClusterAddOn.

Local Abbreviation syncSingle := (addon.syncSingle UpdateManagedClusterAddOnStatus).
Local Abbreviation sync := (addon.sync getAddOnConfig UpdateManagedClusterAddOnStatus).

(** The condition stage is never left with [return nil]. *)
Lemma syncSingle_condition_never_returns_nil c ns addOn s s1 t :
  syncSingle_condition c ns addOn s <> (s1, t, inr (Return None)).
Proof.
  rewrite syncSingle_condition_cases.
  destruct (Leases_Get (leaseLister c) ns (Name addOn) s) as [lease|err].
  - destruct (RenewTime (Spec lease)); discriminate.
  - destruct (IsNotFound err); discriminate.
Qed.

(** C7, as the code has it, for any status helper and any state of the
    collaborators. Take two runs of a reconciliation in a row, the first of
    which returns nil. If the first run sent a status update, let the second
    run find the lease lookup and the clock as they were and read the add-on
    back under the same name with the written condition stored (the first
    condition of its type has the written status); if it sent none, the
    state is as it was. Then the second run sends no status update, records
    no event, leaves the state alone and returns nil; the two runs together
    send at most one update and record at most one event, exactly one update
    when a condition is computed and the stored one differs from it on
    (type, status) and none when they agree; and the second run finds the
    stored condition equal to the recomputed one on (type, status). *)
Theorem C7_second_run_after_success_is_a_no_op c queueKey s s1 t1 :
  run (sync c queueKey) s = (s1, t1, Return None) ->
  (forall ns name n condition,
     SplitMetaNamespaceKey queueKey = (ns, name, None) ->
     In (UpdateStatus (clusterName c) n condition) t1 ->
     Leases_Get (leaseLister c) ns n s1 = Leases_Get (leaseLister c) ns n s /\
     Now (clock c) s1 = Now (clock c) s /\
     exists addOn1,
       ManagedClusterAddOns_Get (addOnLister c) (clusterName c) name s1 = inl addOn1 /\
       Name addOn1 = n /\
       IsStatusConditionPresentAndEqual (Conditions (AddOnStatus addOn1))
         (Type_ condition) (Status condition) = true) ->
  exists t2,
    run (sync c queueKey) s1 = (s1, t2, Return None) /\
    statusWrites t2 = [] /\ events t2 = [] /\
    (length (statusWrites (t1 ++ t2)) <= 1)%nat /\
    (length (events (t1 ++ t2)) <= 1)%nat /\
    (forall ns name addOn t condition,
       queueKey <> DefaultQueueKey ->
       SplitMetaNamespaceKey queueKey = (ns, name, None) ->
       ManagedClusterAddOns_Get (addOnLister c) (clusterName c) name s = inl addOn ->
       syncSingle_condition c ns addOn s = (s, t, inl condition) ->
       length (statusWrites (t1 ++ t2))
         = (if IsStatusConditionPresentAndEqual (Conditions (AddOnStatus addOn))
                 (Type_ condition) (Status condition)
            then 0 else 1)%nat /\
       exists addOn1,
         ManagedClusterAddOns_Get (addOnLister c) (clusterName c) name s1 = inl addOn1 /\
         syncSingle_condition c ns addOn1 s1 = (s1, t, inl condition) /\
         IsStatusConditionPresentAndEqual (Conditions (AddOnStatus addOn1))
           (Type_ condition) (Status condition) = true).
Proof.
  intros Hfirst Hback.
  (* a first run that changed nothing and sent nothing is repeated as it is *)
  assert (Hsame : s1 = s -> statusWrites t1 = [] -> events t1 = [] ->
    run (sync c queueKey) s1 = (s1, t1, Return None) /\
    statusWrites t1 = [] /\ events t1 = [] /\
    (length (statusWrites (t1 ++ t1)) <= 1)%nat /\
    (length (events (t1 ++ t1)) <= 1)%nat /\
    length (statusWrites (t1 ++ t1)) = 0%nat).
  { intros -> Hw He. unfold statusWrites, events in *.
    rewrite !List.filter_app, Hw, He. simpl. repeat split; auto. }
  destruct (String.eqb_spec queueKey DefaultQueueKey) as [->|Hkey].
  { (* the full resync *)
    rewrite sync_resync in Hfirst.
    destruct (ManagedClusterAddOns_List (addOnLister c) (clusterName c) s) as [addOns|err];
      [|discriminate].
    injection Hfirst as <- <-.
    destruct (statusWrites_enqueues (List.filter (configReadable getAddOnConfig) addOns))
      as [Hw He].
    destruct Hsame as (H1 & H2 & H3 & H4 & H5 & _); [reflexivity|exact Hw|exact He|].
    eexists. refine (conj H1 (conj H2 (conj H3 (conj H4 (conj H5 _))))).
    intros; congruence. }
  destruct (SplitMetaNamespaceKey queueKey) as [[ns name] [err|]] eqn:Hsplit.
  { (* a malformed key *)
    rewrite (sync_malformed_key _ _ _ _ _ _ _ _ Hkey Hsplit) in Hfirst.
    injection Hfirst as <- <-.
    destruct Hsame as (H1 & H2 & H3 & H4 & H5 & _); [reflexivity|reflexivity|reflexivity|].
    eexists. refine (conj H1 (conj H2 (conj H3 (conj H4 (conj H5 _))))).
    intros; congruence. }
  rewrite (sync_single _ _ _ _ _ _ _ Hkey Hsplit) in Hfirst.
  destruct (ManagedClusterAddOns_Get (addOnLister c) (clusterName c) name s)
    as [addOn|err] eqn:Hget.
  2:{ (* the add-on is gone *)
    injection Hfirst as <- <- _.
    destruct Hsame as (H1 & H2 & H3 & H4 & H5 & _); [reflexivity|reflexivity|reflexivity|].
    eexists. refine (conj H1 (conj H2 (conj H3 (conj H4 (conj H5 _))))).
    intros; congruence. }
  destruct (syncSingle_cases UpdateManagedClusterAddOnStatus c ns addOn s)
    as [(t & e & Hcond & Hrun)|[(t & condition & Hcond & Heq & Hrun)
       |(t & condition & s2 & updated & err & Hcond & Heq & Hupd & Hrun)]];
    rewrite Hrun in Hfirst; simpl in Hfirst.
  - (* left at the lease lookup: not with nil *)
    injection Hfirst as _ _ ->.
    exfalso. exact (syncSingle_condition_never_returns_nil _ _ _ _ _ _ Hcond).
  - (* the stored condition agrees already *)
    injection Hfirst as <- <-.
    destruct (condition_trace_filters _ _ _ _ _ _ _ Hcond) as (Hw & He & _).
    destruct Hsame as (H1 & H2 & H3 & H4 & H5 & H6); [reflexivity|exact Hw|exact He|].
    eexists. refine (conj H1 (conj H2 (conj H3 (conj H4 (conj H5 _))))).
    intros ns' name' addOn0 t' condition' _ [= <- <-] Hget0 Hcond0.
    rewrite Hget in Hget0. injection Hget0 as <-.
    rewrite Hcond in Hcond0. injection Hcond0 as <- <-.
    rewrite Heq. split; [exact H6|]. eauto.
  - (* the stored condition differs: the first run writes, the second finds it *)
    injection Hfirst as <- <- ->.
    destruct (condition_trace_filters _ _ _ _ _ _ _ Hcond) as (Hw & He & _).
    destruct (Hback ns name (Name addOn) condition eq_refl)
      as (Hlease & Hnow & addOn1 & Hget1 & Hname1 & Heq1).
    { right. apply in_or_app. right. left. reflexivity. }
    assert (Hcond1 : syncSingle_condition c ns addOn1 s2 = (s2, t, inl condition)).
    { apply (syncSingle_condition_ext c ns addOn addOn1 s s2);
        [exact Hname1|exact Hlease|exact Hnow|exact Hcond]. }
    exists (AddOnGet (clusterName c) name :: t).
    split.
    { rewrite (sync_single _ _ _ _ _ _ _ Hkey Hsplit), Hget1.
      rewrite (syncSingle_unchanged _ _ _ _ _ _ _ _ Hcond1 Heq1). reflexivity. }
    unfold statusWrites, events in *. simpl.
    rewrite ?List.filter_app. simpl. rewrite ?List.filter_app. simpl.
    rewrite ?Hw, ?He. simpl.
    split; [reflexivity|]. split; [reflexivity|].
    assert (Hev : (length (List.filter isEvent
                     (if updated then [statusUpdatedEvent addOn condition] else [])) <= 1)%nat
                  /\ List.filter isStatusWrite
                       (if updated then [statusUpdatedEvent addOn condition] else []) = []).
    { destruct updated; simpl; auto. }
    destruct Hev as [Hev Hwr]. rewrite Hwr. simpl.
    split; [lia|]. split; [rewrite app_nil_r; exact Hev|].
    intros ns' name' addOn0 t' condition' _ [= <- <-] Hget0 Hcond0.
    rewrite Hget in Hget0. injection Hget0 as <-.
    rewrite Hcond in Hcond0. injection Hcond0 as <- <-.
    rewrite Heq. split; [reflexivity|]. eauto.
Qed.

End TwoRuns.

(** ** The controller at work on a small hub *)

Import Examples Scenarios.

Local Abbreviation c := (hub.controller cluster).
Local Abbreviation U := (helpers.UpdateManagedClusterAddOnStatus hub.wallClock).

(** C2, on the code. A full resync of a hub that holds one add-on with a
    readable configuration lists the cluster namespace and returns nil, but
    what it adds to the queue is the add-on object itself: no namespace/name
    key reaches the queue, the one [sync] can split and reconcile. *)
Theorem C2_resync_enqueues_the_object_not_a_key :
  run (hub.sync annotationConfig cluster DefaultQueueKey) fresh
    = (fresh, [AddOnList cluster; QueueAdd (ItemAddOn (helloworld []))], Return None) /\
  annotationConfig (helloworld []) = inl (mkAddOnConfig installNamespace) /\
  queueAdds (run (hub.sync annotationConfig cluster DefaultQueueKey) fresh).1.2
    <> [QueueAdd (ItemString helloKey)] /\
  Forall (fun e => forall key, e <> QueueAdd (ItemString key))
    (run (hub.sync annotationConfig cluster DefaultQueueKey) fresh).1.2.
Proof.
  assert (Hrun : run (hub.sync annotationConfig cluster DefaultQueueKey) fresh
    = (fresh, [AddOnList cluster; QueueAdd (ItemAddOn (helloworld []))], Return None))
    by (vm_compute; reflexivity).
  split; [exact Hrun|]. split; [vm_compute; reflexivity|].
  rewrite Hrun. split; [discriminate|]. simpl. repeat constructor; intros key; discriminate.
Qed.

(** C7, as stated, fails: when the stored condition already agrees with the
    computed one, two runs in a row make no status write at all, not
    exactly one. *)
Lemma C7_no_write_when_already_reported :
  (hub.syncTwice annotationConfig cluster helloKey steady).1.2 = Return None /\
  (hub.syncTwice annotationConfig cluster helloKey steady).2.2 = Return None /\
  statusWrites ((hub.syncTwice annotationConfig cluster helloKey steady).1.1.2 ++
                (hub.syncTwice annotationConfig cluster helloKey steady).2.1.2) = [] /\
  length (statusWrites
            ((hub.syncTwice annotationConfig cluster helloKey steady).1.1.2 ++
             (hub.syncTwice annotationConfig cluster helloKey steady).2.1.2)) <> 1%nat.
Proof.
  vm_compute. repeat split; discriminate.
Qed.

(** *** The claims at work *)

(** A lease renewed 299 s ago makes helloworld available. *)
Lemma C1_fresh_lease_is_available :
  Leases_Get (leaseLister c) installNamespace (Name (helloworld [])) fresh = inl freshLease /\
  RenewTime (Spec freshLease) = Some renewed /\
  exists condition,
    syncSingle_condition c installNamespace (helloworld []) fresh
      = (fresh, [LeaseGet installNamespace "helloworld"; ClockNow], inl condition) /\
    Status condition = ConditionTrue.
Proof.
  split; [reflexivity|]. split; [reflexivity|].
  destruct (C1_condition_follows_lease_age c installNamespace (helloworld []) fresh
              freshLease renewed eq_refl eq_refl)
    as (condition & Hrun & _ & Htrue & _).
  exists condition. split; [exact Hrun|].
  apply Htrue. vm_compute. reflexivity.
Defined.


(** The lease of helloworld in its installation namespace gives the key of
    helloworld; the same lease in another namespace gives none. *)
Lemma C4_key_of_helloworld :
  addon.queueKeyFunc annotationConfig c freshLease fresh
    = (fresh, [AddOnGet cluster "helloworld"], inl helloKey) /\
  addon.queueKeyFunc annotationConfig c (helloLease "default" (Some renewed)) fresh
    = (fresh, [AddOnGet cluster "helloworld"], inl "").
Proof.
  split.
  - apply (C4_queue_key_by_installation_namespace annotationConfig c freshLease fresh
             (helloworld []) (mkAddOnConfig installNamespace)); reflexivity.
  - apply (C4_queue_key_by_installation_namespace annotationConfig c
             (helloLease "default" (Some renewed)) fresh
             (helloworld []) (mkAddOnConfig installNamespace));
      [reflexivity|reflexivity|discriminate].
Defined.

(** A lease lister that is not synced makes [syncSingle] return its error. *)
Lemma C5_unsynced_lister_error_is_returned :
  Leases_Get (leaseLister c) installNamespace (Name (helloworld [])) unsynced
    = inr cacheError /\
  IsNotFound cacheError = false /\
  run (addon.syncSingle U c installNamespace (helloworld [])) unsynced
    = (unsynced, [LeaseGet installNamespace "helloworld"], Return (Some cacheError)).
Proof.
  split; [reflexivity|]. split; [reflexivity|].
  apply (C5_lease_lookup_errors U c installNamespace (helloworld []) unsynced);
    reflexivity.
Defined.

(** The first report of helloworld is written and gives one event. *)
Lemma C6_first_report_gives_one_event :
  IsStatusConditionPresentAndEqual (Conditions (AddOnStatus (helloworld [])))
    (Type_ availableNow) (Status availableNow) = false /\
  (U (addOnClient c) cluster "helloworld" availableNow fresh).2 = (true, None) /\
  events (run (addon.syncSingle U c installNamespace (helloworld [])) fresh).1.2
    = [Eventf "ManagedClusterAddOnStatusUpdated"
         "update managed cluster addon %q available condition to %q, due to its lease is not updated constantly"
         ["helloworld"; "True"]].
Proof.
  split; [reflexivity|]. split; [vm_compute; reflexivity|].
  apply (C6_event_only_on_changed_update U c installNamespace (helloworld []) fresh
           [LeaseGet installNamespace "helloworld"; ClockNow] availableNow
           (U (addOnClient c) cluster "helloworld" availableNow fresh).1 true None).
  - vm_compute. reflexivity.
  - reflexivity.
  - vm_compute. reflexivity.
  - reflexivity.
  - reflexivity.
Defined.


(** A lister that fails with something else than not-found: no key. *)
Lemma C8_broken_lister_gives_no_key :
  ManagedClusterAddOns_Get (addOnLister brokenController) cluster (Name freshLease) fresh
    = inr cacheError /\
  IsNotFound cacheError = false /\
  addon.queueKeyFunc annotationConfig brokenController freshLease fresh
    = (fresh, [AddOnGet cluster "helloworld"], inl "").
Proof.
  split; [reflexivity|]. split; [reflexivity|].
  apply (C8_queue_key_empty_on_any_lookup_error annotationConfig brokenController
           freshLease fresh cacheError).
  reflexivity.
Defined.

(** Reconciling the key of helloworld looks its lease up in the key's
    namespace and nowhere else. *)
Lemma C9_lease_of_helloworld_is_sought_in_the_key_namespace :
  SplitMetaNamespaceKey helloKey = (installNamespace, "helloworld", None) /\
  Forall (fun e => forall namespace, leaseNamespaceOf e = Some namespace ->
                   namespace = installNamespace)
    (run (addon.sync annotationConfig U c helloKey) fresh).1.2.
Proof.
  split; [reflexivity|].
  destruct (C9_addon_calls_use_cluster_namespace annotationConfig U c helloKey fresh)
    as (_ & _ & Hlease & _).
  apply (Hlease installNamespace "helloworld").
  - discriminate.
  - reflexivity.
Defined.

(** A lease without renew time makes [syncSingle] panic. *)
Lemma C10_unrenewed_lease_panics :
  Leases_Get (leaseLister c) installNamespace (Name (helloworld [])) unrenewed = inl nilLease /\
  RenewTime (Spec nilLease) = None /\
  run (addon.syncSingle U c installNamespace (helloworld [])) unrenewed
    = (unrenewed, [LeaseGet installNamespace "helloworld"; ClockNow], Panic).
Proof.
  split; [reflexivity|]. split; [reflexivity|].
  apply (C10_nil_renew_time_panics U c installNamespace (helloworld []) unrenewed nilLease);
    reflexivity.
Defined.

(** *** More of the controller at work *)

(** A key of three parts is dropped. *)
Lemma a_key_of_three_parts_is_dropped :
  (2 <= slashes "cluster1/default/helloworld")%nat /\
  run (addon.sync annotationConfig U c "cluster1/default/helloworld") fresh
    = (fresh, [], Return None).
Proof.
  split; [simpl; lia|].
  apply (sync_drops_a_malformed_key annotationConfig U c "cluster1/default/helloworld" fresh).
  simpl. lia.
Defined.

(** The key of an add-on that is gone: one Get, and nil. *)
Lemma the_key_of_a_deleted_addon_is_a_no_op :
  ManagedClusterAddOns_Get (addOnLister c) cluster "goodbye" fresh = inr hub.notFound /\
  run (addon.sync annotationConfig U c (installNamespace ++ "/" ++ "goodbye")%string) fresh
    = (fresh, [AddOnGet cluster "goodbye"], Return None).
Proof.
  split; [reflexivity|].
  rewrite (sync_on_a_namespaced_key annotationConfig U c installNamespace "goodbye" fresh
             eq_refl eq_refl).
  reflexivity.
Defined.

(** The bare key helloworld: its lease is sought in the namespace "". *)
Lemma the_bare_key_looks_in_the_empty_namespace :
  ManagedClusterAddOns_Get (addOnLister c) cluster "helloworld" fresh = inl (helloworld []) /\
  exists rest,
    (run (addon.sync annotationConfig U c "helloworld") fresh).1.2
      = AddOnGet cluster "helloworld" :: LeaseGet "" "helloworld" :: rest.
Proof.
  split; [reflexivity|].
  destruct (sync_on_a_bare_key annotationConfig U c "helloworld" fresh (helloworld [])
              eq_refl ltac:(discriminate) eq_refl) as (rest & Htrace & _).
  exists rest. exact Htrace.
Defined.

(** The lease of helloworld, wherever it lies, never gives the resync key. *)
Lemma the_lease_of_helloworld_never_asks_for_a_resync :
  (addon.queueKeyFunc annotationConfig c (helloLease "default" (Some renewed)) fresh).1.2
    = [AddOnGet cluster "helloworld"].
Proof.
  apply (queueKeyFunc_reads_once_and_never_asks_for_a_resync annotationConfig c
           (helloLease "default" (Some renewed)) fresh).
Defined.

(** The lease of helloworld in its installation namespace gives a key. *)
Lemma the_lease_of_helloworld_gives_a_key :
  (addon.queueKeyFunc annotationConfig c freshLease fresh).2 <> inl "".
Proof.
  apply (queueKeyFunc_key_iff annotationConfig c freshLease fresh).
  exists (helloworld []), (mkAddOnConfig installNamespace).
  repeat split; reflexivity.
Defined.

(** From the lease of helloworld to its key and back to its lease. *)
Lemma the_key_of_the_lease_of_helloworld_finds_it :
  (addon.queueKeyFunc annotationConfig c freshLease fresh).2 = inl helloKey /\
  SplitMetaNamespaceKey helloKey = (installNamespace, "helloworld", None) /\
  exists rest,
    (run (addon.syncSingle U c installNamespace (helloworld [])) fresh).1.2
      = LeaseGet installNamespace "helloworld" :: rest.
Proof.
  split; [reflexivity|].
  destruct (sync_on_the_key_of_a_lease annotationConfig U c freshLease fresh helloKey
              (helloworld []) eq_refl ltac:(discriminate) eq_refl eq_refl eq_refl)
    as (Hsplit & _ & Hrest).
  split; [exact Hsplit|exact Hrest].
Defined.

(** The first report of helloworld: one update, and the state has changed. *)
Lemma the_first_report_is_one_update :
  (length (statusWrites (run (addon.syncSingle U c installNamespace (helloworld [])) fresh).1.2)
     <= 1)%nat /\
  queueAdds (run (addon.syncSingle U c installNamespace (helloworld [])) fresh).1.2 = [].
Proof.
  destruct (syncSingle_sends_at_most_one_update U c installNamespace (helloworld []) fresh)
    as (Hw & _ & Hq & _).
  split; [exact Hw|exact Hq].
Defined.

(** The error of the unsynced lease lister is the one returned. *)
Lemma the_error_of_the_unsynced_lister_is_the_lookup_error :
  (run (addon.syncSingle U c installNamespace (helloworld [])) unsynced).2
    = Return (Some cacheError) /\
  Leases_Get (leaseLister c) installNamespace "helloworld" unsynced = inr cacheError.
Proof.
  split; [reflexivity|].
  destruct (syncSingle_error_comes_from_the_lookup_or_the_update U c installNamespace
              (helloworld []) unsynced cacheError eq_refl)
    as [(Hget & _)|(condition & updated & _ & Hupd & _)].
  - exact Hget.
  - reflexivity.
Defined.

(** helloworld without any condition is reported available. *)
Lemma a_new_addon_is_reported :
  syncSingle_condition c installNamespace (helloworld []) fresh
    = (fresh, [LeaseGet installNamespace "helloworld"; ClockNow], inl availableNow) /\
  statusWrites (run (addon.syncSingle U c installNamespace (helloworld [])) fresh).1.2
    = [UpdateStatus cluster "helloworld" availableNow].
Proof.
  split; [vm_compute; reflexivity|].
  apply (syncSingle_reports_a_changed_status U c installNamespace (helloworld []) fresh
           [LeaseGet installNamespace "helloworld"; ClockNow] availableNow).
  - vm_compute. reflexivity.
  - simpl. intros stored [].
Defined.

(** Ten seconds after the renewal and 299 seconds after it. *)
Lemma available_at_299s_so_available_at_10s :
  Now (clock c) steady - renewed <= Now (clock c) fresh - renewed /\
  exists condition1 condition2,
    (syncSingle_condition c installNamespace (helloworld []) steady).2 = inl condition1 /\
    (syncSingle_condition c installNamespace (helloworld []) fresh).2 = inl condition2 /\
    (Status condition2 = ConditionTrue -> Status condition1 = ConditionTrue) /\
    (Status condition1 = ConditionFalse -> Status condition2 = ConditionFalse).
Proof.
  split; [vm_compute; discriminate|].
  apply (availability_is_monotone_in_lease_age c installNamespace (helloworld [])
           steady fresh freshLease freshLease renewed renewed);
    try reflexivity.
  vm_compute. discriminate.
Defined.

(** helloworld read from another namespace, without annotations. *)
Lemma the_namespace_of_the_addon_is_of_no_account :
  run (addon.syncSingle U c installNamespace
         (mkAddOn (mkObjectMeta "helloworld" "elsewhere" ∅) (mkAddOnStatus []))) fresh
  = run (addon.syncSingle U c installNamespace (helloworld [])) fresh.
Proof.
  apply (syncSingle_uses_name_and_conditions_only U c installNamespace
           (mkAddOn (mkObjectMeta "helloworld" "elsewhere" ∅) (mkAddOnStatus []))
           (helloworld []) fresh); reflexivity.
Defined.

(** Reconciling helloworld adds nothing to the queue. *)
Lemma reconciling_helloworld_enqueues_nothing :
  helloKey <> DefaultQueueKey /\
  queueAdds (run (addon.sync annotationConfig U c helloKey) fresh).1.2 = [].
Proof.
  split; [discriminate|].
  apply (sync_modes_keep_apart annotationConfig U c helloKey fresh).
  discriminate.
Defined.


(** Reconciling helloworld twice from its first report, on a hub whose
    lister reads what the status helper wrote: the first run returns nil
    after one update, the second finds the condition stored and sends
    nothing. *)
Lemma C7_first_report_then_a_no_op :
  (run (addon.sync annotationConfig U c helloKey) fresh).2 = Return None /\
  statusWrites (run (addon.sync annotationConfig U c helloKey) fresh).1.2
    = [UpdateStatus cluster "helloworld" availableNow] /\
  exists t2,
    run (addon.sync annotationConfig U c helloKey)
        (run (addon.sync annotationConfig U c helloKey) fresh).1.1
      = ((run (addon.sync annotationConfig U c helloKey) fresh).1.1, t2, Return None) /\
    statusWrites t2 = [] /\ events t2 = [].
Proof.
  split; [vm_compute; reflexivity|]. split; [vm_compute; reflexivity|].
  destruct (C7_second_run_after_success_is_a_no_op annotationConfig U c helloKey fresh
              (run (addon.sync annotationConfig U c helloKey) fresh).1.1
              (run (addon.sync annotationConfig U c helloKey) fresh).1.2)
    as (t2 & Hrun & Hw & He & _).
  - vm_compute. reflexivity.
  - intros ns name n condition Hsplit Hin.
    injection Hsplit as <- <-.
    vm_compute in Hin.
    destruct Hin as [Hin|[Hin|[Hin|[Hin|[Hin|[]]]]]]; try discriminate Hin.
    injection Hin as <- <-.
    split; [vm_compute; reflexivity|]. split; [vm_compute; reflexivity|].
    eexists. split; [vm_compute; reflexivity|].
    split; vm_compute; reflexivity.
  - exists t2. split; [exact Hrun|]. split; [exact Hw|exact He].
Defined.
